(** * Sistema de Analise de Credito (app.py): shallow embedding and properties

    The Streamlit script [app.py] is re-executed from top to bottom on every
    user interaction.  One execution is modelled as a computation in a small
    state-and-exception monad over the things the script reads and writes:
    the prediction log file, the session history, the module-level variable
    [df_log] and the widgets drawn on the page.

    Python floats that carry probabilities and means are modelled as exact
    rationals ([Q]); the classifier, pandas' CSV reader/writer and the clock
    are external to the script and enter as parameters.  Static page content
    (titles, CSS, the expanders, the footer) and number formatting are left
    out; so is the button "Nova Analise", which is created inside the block
    of the first button and therefore is never pressed in an execution that
    runs that block. *)

From Stdlib Require Import List String ZArith QArith Bool Lia Lqa Permutation.
Import ListNotations.
Open Scope string_scope.
Open Scope list_scope.
Open Scope Z_scope.

(** ** Risk classifier (app.py, categorizar_risco) *)

Definition categorizar_risco (probabilidade : Q) : string * string :=
  if Qle_bool (7 # 10) probabilidade then ("Baixo Risco", "success")
  else if Qle_bool (4 # 10) probabilidade then ("Risco Médio", "warning")
  else ("Alto Risco", "danger").

(** ** Data frames

    A pandas frame is kept column by column, in column order, as pandas
    does; a cell is a number, a timestamp (microseconds), a text or a
    missing value (NaN / NaT). *)

Inductive Cell : Type :=
| Num (q : Q)
| Data (t : Z)
| Texto (s : string)
| Vazio.

Definition Coluna : Type := string * list Cell.
Definition DataFrame : Type := list Coluna.

Definition nomes (df : DataFrame) : list string := map fst df.

(** [df[nome]]: the first column of that name, [None] for a KeyError. *)
Fixpoint coluna (nome : string) (df : DataFrame) : option (list Cell) :=
  match df with
  | [] => None
  | (n, c) :: resto => if String.eqb nome n then Some c else coluna nome resto
  end.

(** [nome in df.columns] *)
Definition tem_coluna (nome : string) (df : DataFrame) : bool :=
  match coluna nome df with Some _ => true | None => false end.

Definition n_linhas (df : DataFrame) : nat :=
  match df with
  | [] => O
  | (_, c) :: _ => List.length c
  end.

(** [df.empty]: some axis has length zero. *)
Definition empty (df : DataFrame) : bool :=
  match df with
  | [] => true
  | _ => Nat.eqb (n_linhas df) 0
  end.

(** The rows of a frame, as the model receives them. *)
Definition linha (i : nat) (df : DataFrame) : list Cell :=
  map (fun c : Coluna => nth i (snd c) Vazio) df.

Definition linhas (df : DataFrame) : list (list Cell) :=
  map (fun i => linha i df) (seq 0 (n_linhas df)).

(** Apply a fallible function to every element; one failure fails all. *)
Fixpoint lote {A B : Type} (f : A -> option B) (l : list A) : option (list B) :=
  match l with
  | [] => Some []
  | x :: r =>
      match f x with
      | Some y => match lote f r with Some ys => Some (y :: ys) | None => None end
      | None => None
      end
  end.

(** [df[[n1, ..., nk]]]: those columns in the order asked for. *)
Definition selecionar (ns : list string) (df : DataFrame) : option DataFrame :=
  lote (fun n => match coluna n df with Some c => Some (n, c) | None => None end) ns.

(** [df[nome] = valores]: replaces the column in place when the name exists,
    appends it otherwise; a length mismatch raises. *)
Definition substituir (nome : string) (valores : list Cell) (df : DataFrame) : DataFrame :=
  map (fun c : Coluna => if String.eqb nome (fst c) then (fst c, valores) else c) df.

Definition atribuir (nome : string) (valores : list Cell) (df : DataFrame)
  : option DataFrame :=
  if Nat.eqb (List.length valores) (n_linhas df) then
    Some (if tem_coluna nome df then substituir nome valores df
          else df ++ [(nome, valores)])
  else None.

(** [df[mascara]]: boolean row selection. *)
Fixpoint mascarar {A : Type} (mascara : list bool) (l : list A) : list A :=
  match mascara, l with
  | b :: m, x :: r => if b then x :: mascarar m r else mascarar m r
  | _, _ => []
  end.

Definition filtrar (mascara : list bool) (df : DataFrame) : DataFrame :=
  map (fun c : Coluna => (fst c, mascarar mascara (snd c))) df.

(** [coluna >= limite] on one cell: NaT compares false, a cell that is not a
    timestamp raises TypeError. *)
Definition comparar_ts (limite : Z) (c : Cell) : option bool :=
  match c with
  | Data t => Some (limite <=? t)
  | Vazio => Some false
  | _ => None
  end.

(** [Series.mean()] with the result formatted by [:.1f]: missing values are
    skipped, no value at all gives NaN, a text or timestamp raises. *)
Fixpoint soma_validos (c : list Cell) : option (Q * nat) :=
  match c with
  | [] => Some (0%Q, O)
  | Num q :: r =>
      match soma_validos r with
      | Some (s, n) => Some ((q + s)%Q, S n)
      | None => None
      end
  | Vazio :: r => soma_validos r
  | _ :: _ => None
  end.

Definition mean (c : list Cell) : option Cell :=
  match soma_validos c with
  | Some (_, O) => Some Vazio
  | Some (s, n) => Some (Num (s / inject_Z (Z.of_nat n))%Q)
  | None => None
  end.

(** [pd.concat([df, pd.DataFrame([linha])], ignore_index=True)] *)
Fixpoint valor (nome : string) (l : list (string * Cell)) : option Cell :=
  match l with
  | [] => None
  | (n, v) :: r => if String.eqb nome n then Some v else valor nome r
  end.

Definition concat (df : DataFrame) (nova : list (string * Cell)) : DataFrame :=
  map (fun c : Coluna =>
         (fst c, snd c ++ [match valor (fst c) nova with Some v => v | None => Vazio end]))
      df
  ++ map (fun nv : string * Cell => (fst nv, repeat Vazio (n_linhas df) ++ [snd nv]))
         (filter (fun nv : string * Cell => negb (tem_coluna (fst nv) df)) nova).

(** Columns of the prediction log (app.py, carregar_log_predicoes). *)
Definition colunas_log : list string :=
  ["timestamp"; "idade"; "renda"; "score_credito"; "experiencia_credito";
   "probabilidade"; "predicao"].

(** [pd.DataFrame(columns=[...])] *)
Definition df_colunas (cs : list string) : DataFrame := map (fun n => (n, [])) cs.

(** ** External collaborators *)

(** The unpickled classifier: any object with [predict_proba] and [predict];
    [None] stands for a raised exception.  Feature names carried by a frame
    are not part of the input. *)
Record Modelo : Type := {
  predict_proba : list (list Cell) -> option (list (list Q));
  predict : list (list Cell) -> option (list Z)
}.

(** pandas' CSV reader and writer over file contents. *)
Class Pandas : Type := {
  Arquivo : Type;
  read_csv : list string -> Arquivo -> option DataFrame;
  to_csv : DataFrame -> Arquivo
}.

(** Modelled from the spec: the classifier artifact modelo_credito.pkl is not
    under src, so the relation between its [predict] and its [predict_proba]
    is taken from the data model: approved (label 1) iff the probability of
    class 1 is at least the 0.5 cut. *)
Definition corte_05 (m : Modelo) : Prop :=
  forall X P D,
    predict_proba m X = Some P -> predict m X = Some D ->
    Forall2 (fun l d => forall p, nth_error l 1 = Some p -> (d = 1 <-> (1 # 2 <= p)%Q))
            P D.

(** A classifier that scores each row on its own, independently of the other
    rows of the table it arrives in. *)
Definition por_linha (m : Modelo) : Prop :=
  exists (f : list Cell -> option (list Q)) (g : list Cell -> option Z),
    forall X, X <> [] -> predict_proba m X = lote f X /\ predict m X = lote g X.

(** ** Log entries, as the data model describes them *)

Record LogEntry : Type := {
  log_timestamp : Z;
  log_idade : Z;
  log_renda : Z;
  log_score_credito : Z;
  log_experiencia_credito : Z;
  log_probabilidade : Q;
  log_predicao : Z
}.

(** The frame holding the given entries, oldest first. *)
Definition quadro_log (es : list LogEntry) : DataFrame :=
  [("timestamp", map (fun e => Data (log_timestamp e)) es);
   ("idade", map (fun e => Num (inject_Z (log_idade e))) es);
   ("renda", map (fun e => Num (inject_Z (log_renda e))) es);
   ("score_credito", map (fun e => Num (inject_Z (log_score_credito e))) es);
   ("experiencia_credito", map (fun e => Num (inject_Z (log_experiencia_credito e))) es);
   ("probabilidade", map (fun e => Num (log_probabilidade e)) es);
   ("predicao", map (fun e => Num (inject_Z (log_predicao e))) es)].

Definition soma_idades (es : list LogEntry) : Z :=
  fold_right (fun e s => log_idade e + s) 0 es.

Definition media_idade (es : list LogEntry) : Q :=
  (inject_Z (soma_idades es) / inject_Z (Z.of_nat (List.length es)))%Q.

Definition trinta_dias : Z := 30 * 24 * 3600 * 1000000.

(** The entries that are not older than 30 days at [agora]. *)
Definition recentes (agora : Z) (es : list LogEntry) : list LogEntry :=
  filter (fun e => agora - trinta_dias <=? log_timestamp e) es.

(** ** One execution of the script *)

Section Script.

Context {P : Pandas}.

(** What the user sets on the page for one execution, and the readings of
    [datetime.now()] the execution takes (microseconds). *)
Record Entrada : Type := {
  idade : Z;
  renda : Z;
  score_credito : Z;
  experiencia_credito : Z;
  botao_analisar : bool;
  uploaded_file : option Arquivo;
  agora_drift : Z;
  agora_historico : Z;
  agora_log : Z
}.

(** An item of [st.session_state.historico]: the time of day in seconds, the
    decision label and the probability (shown as a percentage). *)
Record ItemHistorico : Type := {
  hora : Z;
  resultado : string;
  probabilidade_hist : Q
}.

(** What the script draws on the page. *)
Inductive Elemento : Type :=
| ErroModelo
| ErroSemModelo
| ErroPredicao
| ErroLote
| TabelaHistorico (h : list ItemHistorico)
| SemHistorico
| MetricaIdade (media : Cell)
| SemDadosDrift
| MetricaDecisao (aprovado : bool)
| MetricaProbabilidade (p : Q)
| MetricaRisco (categoria : string)
| Gauge (p : Q)
| Interpretacao (classe : string)
| Fatores (impactos : list string)
| Recomendacoes (grupos : list string)
| TabelaLote (df : DataFrame)
| Download (dados : Arquivo)
| Traceback.

(** The elements that make up the result of an interactive scoring. *)
Definition e_resultado (el : Elemento) : bool :=
  match el with
  | MetricaDecisao _ | MetricaProbabilidade _ | MetricaRisco _ | Gauge _
  | Interpretacao _ | Fatores _ | Recomendacoes _ => true
  | _ => false
  end.

(** The log file (absent or with a content), whether it can be written, the
    session history, the variable [df_log] and the page. *)
Record Estado : Type := {
  arquivo_log : option Arquivo;
  log_gravavel : bool;
  historico : list ItemHistorico;
  df_log : DataFrame;
  tela : list Elemento
}.

(** A computation either returns a value or raises; the state reached is
    kept in both cases. *)
Definition M (A : Type) : Type := Estado -> option A * Estado.

Definition ret {A : Type} (a : A) : M A := fun s => (Some a, s).

Definition bind {A B : Type} (c : M A) (k : A -> M B) : M B :=
  fun s =>
    match c s with
    | (Some a, s') => k a s'
    | (None, s') => (None, s')
    end.

Definition levantar {A : Type} : M A := fun s => (None, s).

(** [try: c except Exception: h] *)
Definition tentar {A : Type} (c : M A) (h : M A) : M A :=
  fun s =>
    match c s with
    | (Some a, s') => (Some a, s')
    | (None, s') => h s'
    end.

Definition ou_levantar {A : Type} (o : option A) : M A :=
  match o with Some a => ret a | None => levantar end.

Definition ler : M Estado := fun s => (Some s, s).

Definition mostrar (el : Elemento) : M unit :=
  fun s => (Some tt,
            {| arquivo_log := arquivo_log s; log_gravavel := log_gravavel s;
               historico := historico s; df_log := df_log s;
               tela := tela s ++ [el] |}).

Definition definir_df_log (df : DataFrame) : M unit :=
  fun s => (Some tt,
            {| arquivo_log := arquivo_log s; log_gravavel := log_gravavel s;
               historico := historico s; df_log := df;
               tela := tela s |}).

Definition anexar_historico (item : ItemHistorico) : M unit :=
  fun s => (Some tt,
            {| arquivo_log := arquivo_log s; log_gravavel := log_gravavel s;
               historico := historico s ++ [item]; df_log := df_log s;
               tela := tela s |}).

(** [df.to_csv(LOG_FILE, index=False)]: replaces the file, or raises when
    the file cannot be written. *)
Definition gravar_log (df : DataFrame) : M unit :=
  fun s =>
    if log_gravavel s then
      (Some tt,
       {| arquivo_log := Some (to_csv df); log_gravavel := log_gravavel s;
          historico := historico s; df_log := df_log s; tela := tela s |})
    else (None, s).

End Script.

Notation "x <- c ;; k" := (bind c (fun x => k))
  (at level 61, c at next level, right associativity).
Notation "c ;; k" := (bind c (fun _ => k))
  (at level 61, right associativity).

Section Aplicacao.

Context {P : Pandas}.

(** *** Prediction log (app.py, carregar_log_predicoes)

    The argument is what [LOG_FILE] holds: [None] when the file does not
    exist. *)
Definition carregar_log_predicoes (arquivo : option Arquivo) : DataFrame :=
  match arquivo with
  | Some a =>
      match read_csv ["timestamp"] a with
      | Some df => df
      | None => df_colunas colunas_log
      end
  | None => df_colunas colunas_log
  end.

(** *** Model (app.py, carregar_modelo); [pkl] is the unpickled artifact,
    [None] when it is missing or cannot be loaded. *)
Definition carregar_modelo (pkl : option Modelo) : M (option Modelo) :=
  match pkl with
  | Some modelo => ret (Some modelo)
  | None => mostrar ErroModelo ;; ret None
  end.

(** *** Prediction (app.py, fazer_predicao) *)

(** Body of the [try]: [predict_proba(dados)[0][1]] and [predict(dados)[0]]. *)
Definition predizer (modelo : Modelo) (dados : list (list Cell)) : option (Q * Z) :=
  match predict_proba modelo dados with
  | Some proba =>
      match nth_error proba 0 with
      | Some l =>
          match nth_error l 1 with
          | Some probabilidade =>
              match predict modelo dados with
              | Some d =>
                  match nth_error d 0 with
                  | Some decisao => Some (probabilidade, decisao)
                  | None => None
                  end
              | None => None
              end
          | None => None
          end
      | None => None
      end
  | None => None
  end.

Definition fazer_predicao (modelo : Modelo) (dados : list (list Cell))
  : M (option Q * option Z) :=
  tentar (pd <- ou_levantar (predizer modelo dados) ;;
          ret (Some (fst pd), Some (snd pd)))
         (mostrar ErroPredicao ;; ret (None, None)).

(** *** Sidebar: history and drift monitoring *)

Definition historico_analises : M unit :=
  s <- ler ;;
  match historico s with
  | [] => mostrar SemHistorico
  | h => mostrar (TabelaHistorico h)
  end.

Definition media_coluna (nome : string) (df : DataFrame) : M Cell :=
  c <- ou_levantar (coluna nome df) ;;
  ou_levantar (mean c).

Definition monitoramento (agora : Z) : M unit :=
  s <- ler ;;
  if negb (empty (df_log s)) && tem_coluna "idade" (df_log s) then
    let limite_30d := agora - trinta_dias in
    ts <- ou_levantar (coluna "timestamp" (df_log s)) ;;
    mascara <- ou_levantar (lote (comparar_ts limite_30d) ts) ;;
    let ultimos_30d := filtrar mascara (df_log s) in
    media_idade_30d <-
      (if negb (empty ultimos_30d) then media_coluna "idade" ultimos_30d
       else media_coluna "idade" (df_log s)) ;;
    mostrar (MetricaIdade media_idade_30d)
  else mostrar SemDadosDrift.

(** *** Interactive scoring (the handler of the button) *)

Definition dados_cliente (e : Entrada) : list (list Cell) :=
  [[Num (inject_Z (idade e)); Num (inject_Z (renda e));
    Num (inject_Z (score_credito e)); Num (inject_Z (experiencia_credito e))]].

(** [decisao == 1] *)
Definition igual_a_1 (decisao : option Z) : bool :=
  match decisao with Some d => d =? 1 | None => false end.

Definition rotulo (aprovado : bool) : string :=
  if aprovado then "Aprovado" else "Negado".

Definition nova_linha (e : Entrada) (probabilidade : Q) (predicao : Z)
  : list (string * Cell) :=
  [("timestamp", Data (agora_log e));
   ("idade", Num (inject_Z (idade e)));
   ("renda", Num (inject_Z (renda e)));
   ("score_credito", Num (inject_Z (score_credito e)));
   ("experiencia_credito", Num (inject_Z (experiencia_credito e)));
   ("probabilidade", Num probabilidade);
   ("predicao", Num (inject_Z predicao))].

Definition impactos (e : Entrada) : list string :=
  [(if (25 <=? idade e) && (idade e <=? 55) then "Positivo" else "Neutro");
   (if 4000 <=? renda e then "Positivo"
    else if renda e <? 2000 then "Negativo" else "Neutro");
   (if 700 <=? score_credito e then "Positivo"
    else if score_credito e <? 500 then "Negativo" else "Neutro");
   (if 2 <=? experiencia_credito e then "Positivo" else "Negativo")].

(** Each tag stands for one group of lines added to [recomendacoes]. *)
Definition recomendacoes (e : Entrada) (probabilidade : Q) (aprovado : bool)
  : list string :=
  if aprovado then
    if Qle_bool (8 # 10) probabilidade then ["premium"]
    else if Qle_bool (6 # 10) probabilidade then ["conservador"]
    else ["condicional"]
  else
    ["negado"]
    ++ (if score_credito e <? 500 then ["melhorar score"] else [])
    ++ (if renda e <? 2000 then ["comprovar renda"] else []).

(** What is drawn once the log has been written (app.py, from "Categorizar
    risco" on). *)
Definition exibir_resultado (e : Entrada) (probabilidade : Q) (decisao : option Z)
  : M unit :=
  let categoria_risco := fst (categorizar_risco probabilidade) in
  mostrar (MetricaDecisao (igual_a_1 decisao)) ;;
  mostrar (MetricaProbabilidade probabilidade) ;;
  mostrar (MetricaRisco categoria_risco) ;;
  mostrar (Gauge probabilidade) ;;
  mostrar (Interpretacao
             (if igual_a_1 decisao then
                if Qle_bool (7 # 10) probabilidade then "success-message"
                else "warning-message"
              else "danger-message")) ;;
  mostrar (Fatores (impactos e)) ;;
  mostrar (Recomendacoes (recomendacoes e probabilidade (igual_a_1 decisao))).

Definition analisar_credito (modelo : Modelo) (e : Entrada) : M unit :=
  r <- fazer_predicao modelo (dados_cliente e) ;;
  match fst r with
  | Some probabilidade =>
      let decisao := snd r in
      anexar_historico
        {| hora := (agora_historico e / 1000000) mod 86400;
           resultado := rotulo (igual_a_1 decisao);
           probabilidade_hist := probabilidade |} ;;
      predicao <- ou_levantar decisao ;;
      s <- ler ;;
      let novo := concat (df_log s) (nova_linha e probabilidade predicao) in
      definir_df_log novo ;;
      gravar_log novo ;;
      exibir_resultado e probabilidade decisao
  | None => ret tt
  end.

(** *** Batch scoring (the block "Analise em Lote") *)

Definition colunas_esperadas : list string :=
  ["idade"; "renda"; "score_credito"; "experiencia_credito"].

Definition X_lote (df_lote : DataFrame) : option DataFrame :=
  if forallb (fun col => tem_coluna col df_lote) colunas_esperadas
  then selecionar colunas_esperadas df_lote
  else Some df_lote.

Definition pontuar_lote (modelo : Modelo) (df_lote : DataFrame) : option DataFrame :=
  match X_lote df_lote with
  | Some X =>
      match predict_proba modelo (linhas X) with
      | Some proba =>
          match lote (fun l => nth_error l 1) proba with
          | Some preds_proba_lote =>
              match predict modelo (linhas X) with
              | Some preds_lote =>
                  match atribuir "Probabilidade" (map Num preds_proba_lote) df_lote with
                  | Some df1 =>
                      atribuir "Resultado"
                        (map (fun d => Texto (rotulo (d =? 1))) preds_lote) df1
                  | None => None
                  end
              | None => None
              end
          | None => None
          end
      | None => None
      end
  | None => None
  end.

Definition analise_lote (modelo : Modelo) (arquivo : Arquivo) : M unit :=
  tentar (df_lote <- ou_levantar (read_csv [] arquivo) ;;
          df <- ou_levantar (pontuar_lote modelo df_lote) ;;
          mostrar (TabelaLote df) ;;
          mostrar (Download (to_csv df)))
         (mostrar ErroLote).

(** *** The whole script, and one execution of it *)

Definition script (pkl : option Modelo) (e : Entrada) : M unit :=
  s <- ler ;;
  definir_df_log (carregar_log_predicoes (arquivo_log s)) ;;
  modelo <- carregar_modelo pkl ;;
  match modelo with
  | Some m =>
      historico_analises ;;
      monitoramento (agora_drift e) ;;
      (if botao_analisar e then analisar_credito m e else ret tt) ;;
      match uploaded_file e with
      | Some arquivo => analise_lote m arquivo
      | None => ret tt
      end
  | None => mostrar ErroSemModelo
  end.

(** A run starts with a blank page and [df_log] not yet bound; an exception
    that nothing catches ends the run and is shown as a traceback. *)
Definition executar (pkl : option Modelo) (e : Entrada) (s : Estado) : Estado :=
  let inicio := {| arquivo_log := arquivo_log s; log_gravavel := log_gravavel s;
                   historico := historico s; df_log := []; tela := [] |} in
  match script pkl e inicio with
  | (Some _, s') => s'
  | (None, s') =>
      {| arquivo_log := arquivo_log s'; log_gravavel := log_gravavel s';
         historico := historico s'; df_log := df_log s';
         tela := tela s' ++ [Traceback] |}
  end.

Definition executar_todas (pkl : option Modelo) (es : list Entrada) (s : Estado)
  : Estado :=
  fold_left (fun s' e => executar pkl e s') es s.

(** The log entry an interactive scoring writes. *)
Definition registro (modelo : Modelo) (e : Entrada) : option LogEntry :=
  match predizer modelo (dados_cliente e) with
  | Some (p, d) =>
      Some {| log_timestamp := agora_log e; log_idade := idade e;
              log_renda := renda e; log_score_credito := score_credito e;
              log_experiencia_credito := experiencia_credito e;
              log_probabilidade := p; log_predicao := d |}
  | None => None
  end.

End Aplicacao.

(** ** Statements read off the specification *)

(** The entries the drift monitor averages over: those of the last 30 days,
    or the whole log when there is none. *)
Definition janela (agora : Z) (es : list LogEntry) : list LogEntry :=
  match recentes agora es with
  | [] => es
  | r => r
  end.

(** The cell of a named column at a row. *)
Definition celula (nome : string) (i : nat) (df : DataFrame) : option Cell :=
  match coluna nome df with
  | Some c => nth_error c i
  | None => None
  end.

(** A cell of the column [Resultado] agrees with the 0.5 cut on the cell of
    the column [Probabilidade] of the same row. *)
Definition celulas_no_corte (cp cr : Cell) : Prop :=
  exists p, cp = Num p /\ (cr = Texto "Aprovado" <-> (1 # 2 <= p)%Q)
            /\ (cr = Texto "Negado" <-> (p < 1 # 2)%Q).

(** The log file does not exist, or holds the header alone. *)
Definition log_ausente_ou_vazio {P : Pandas} (arquivo : option Arquivo) : Prop :=
  arquivo = None
  \/ exists a, arquivo = Some a /\ read_csv ["timestamp"] a = Some (quadro_log []).

(** Reading back what was written for a frame of log entries gives that
    frame again, cell for cell. *)
Definition csv_fiel {P : Pandas} : Prop :=
  forall es : list LogEntry,
    read_csv ["timestamp"] (to_csv (quadro_log es)) = Some (quadro_log es).


(** Same log file, history and [df_log]; only the page may differ. *)
Definition mesmo_mundo {P : Pandas} (s s' : Estado) : Prop :=
  arquivo_log s' = arquivo_log s /\ log_gravavel s' = log_gravavel s
  /\ historico s' = historico s /\ df_log s' = df_log s.

(** A computation that changes nothing but the page. *)
Definition preserva {P : Pandas} {A : Type} (c : M A) : Prop :=
  forall s, mesmo_mundo s (snd (c s)).

Definition sem_upload {P : Pandas} (e : Entrada) : Entrada :=
  {| idade := idade e; renda := renda e; score_credito := score_credito e;
     experiencia_credito := experiencia_credito e;
     botao_analisar := botao_analisar e; uploaded_file := None;
     agora_drift := agora_drift e; agora_historico := agora_historico e;
     agora_log := agora_log e |}.

(** ** Concrete collaborators, used to run the script on examples *)

(** A classifier given by the probability it assigns to a row; it rejects an
    empty table, and decides by the 0.5 cut. *)
Definition classificador (prob : list Cell -> option Q) : Modelo :=
  {| predict_proba := fun X =>
       match X with
       | [] => None
       | _ => lote (fun l => option_map (fun p => [(1 - p)%Q; p]) (prob l)) X
       end;
     predict := fun X =>
       match X with
       | [] => None
       | _ => lote (fun l => option_map
                               (fun p => if Qle_bool (1 # 2) p then 1 else 0)
                               (prob l)) X
       end |}.

(** Four numeric features; the probability grows with the credit score. *)
Definition prob_exemplo (l : list Cell) : option Q :=
  match l with
  | [Num _; Num _; Num score; Num _] =>
      Some (if Qle_bool score 300 then 0
            else if Qle_bool 850 score then 1
            else (score - 300) / 550)%Q
  | _ => None
  end.

Definition modelo_exemplo : Modelo := classificador prob_exemplo.

(** A classifier trained on five features: it rejects every four-feature
    row. *)
Definition modelo_cinco : Modelo :=
  classificador (fun l => match l with
                          | [Num _; Num _; Num _; Num _; Num _] => Some (1 # 2)
                          | _ => None
                          end).

(** File contents kept cell by cell: reading fails on a file without columns
    and on one that lacks a column named in [parse_dates]. *)
Definition ler_celulas (parse_dates : list string) (a : DataFrame) : option DataFrame :=
  match a with
  | [] => None
  | _ => if forallb (fun n => tem_coluna n a) parse_dates then Some a else None
  end.

#[export] Instance pandas_celulas : Pandas :=
  {| Arquivo := DataFrame; read_csv := ler_celulas; to_csv := fun df => df |}.

Definition estado_inicial : Estado :=
  {| arquivo_log := None; log_gravavel := true; historico := [];
     df_log := []; tela := [] |}.

(** The default values of the form, with the button pressed. *)
Definition entrada_padrao : Entrada :=
  {| idade := 35; renda := 5000; score_credito := 650; experiencia_credito := 2;
     botao_analisar := true; uploaded_file := None;
     agora_drift := 1000; agora_historico := 2000; agora_log := 3000 |}.

Definition entrada_jovem : Entrada :=
  {| idade := 19; renda := 1500; score_credito := 410; experiencia_credito := 0;
     botao_analisar := true; uploaded_file := None;
     agora_drift := 5000; agora_historico := 6000; agora_log := 7000 |}.

(** A table with the expected columns out of order, an extra column, and a
    column that already carries the name [Resultado]. *)
Definition tabela_embaralhada : DataFrame :=
  [("score_credito", [Num 650; Num 410]);
   ("Resultado", [Texto "pendente"; Texto "pendente"]);
   ("idade", [Num 35; Num 19]);
   ("cliente", [Texto "ana"; Texto "rui"]);
   ("experiencia_credito", [Num 2; Num 0]);
   ("renda", [Num 5000; Num 1500])].

(** A log written under an older schema, without a [timestamp] column. *)
Definition log_antigo : DataFrame :=
  [("data", [Texto "2023-01-05"]); ("idade", [Num 40]); ("aprovado", [Num 1])].

(** What batch scoring with [modelo_exemplo] makes of that table. *)
Definition saida_embaralhada : DataFrame :=
  [("score_credito", [Num 650; Num 410]);
   ("Resultado", [Texto "Aprovado"; Texto "Negado"]);
   ("idade", [Num 35; Num 19]);
   ("cliente", [Texto "ana"; Texto "rui"]);
   ("experiencia_credito", [Num 2; Num 0]);
   ("renda", [Num 5000; Num 1500]);
   ("Probabilidade", [Num (350 # 550); Num (110 # 550)])].

(** The entries that scoring [entrada_padrao] and then [entrada_jovem] with
    [modelo_exemplo] writes. *)
Definition registros_exemplo : list LogEntry :=
  [{| log_timestamp := 3000; log_idade := 35; log_renda := 5000;
      log_score_credito := 650; log_experiencia_credito := 2;
      log_probabilidade := 350 # 550; log_predicao := 1 |};
   {| log_timestamp := 7000; log_idade := 19; log_renda := 1500;
      log_score_credito := 410; log_experiencia_credito := 0;
      log_probabilidade := 110 # 550; log_predicao := 0 |}].

Definition estado_log_antigo : Estado :=
  {| arquivo_log := Some log_antigo; log_gravavel := true; historico := [];
     df_log := []; tela := [] |}.

(** No log file yet, in a place where none can be created. *)
Definition estado_sem_escrita : Estado :=
  {| arquivo_log := None; log_gravavel := false; historico := [];
     df_log := []; tela := [] |}.

(** ** Further parts of the script *)



(** *** Colouring of the factor table (app.py, color_impacto) *)
Definition color_impacto (val : string) : string :=
  if String.eqb val "Positivo" then "background-color: #d4edda"
  else if String.eqb val "Negativo" then "background-color: #f8d7da"
  else "background-color: #fff3cd".

(** The impact labels from worst to best. *)
Definition ordem_impacto (val : string) : Z :=
  if String.eqb val "Negativo" then 0
  else if String.eqb val "Neutro" then 1
  else 2.

(** *** The lines of the block "Recomendacoes", as written on the page. *)
Definition foco_score : string :=
  "📈 Foco prioritário: melhorar score de crédito".

Definition foco_renda : string :=
  "💰 Considere aumentar comprovação de renda".

Definition lista_recomendacoes {P : Pandas} (e : Entrada) (probabilidade : Q)
    (decisao : option Z) : list string :=
  if igual_a_1 decisao then
    if Qle_bool (8 # 10) probabilidade then
      ["✅ Cliente aprovado para linha de crédito premium";
       "✅ Considere ofertas de produtos adicionais";
       "✅ Cliente elegível para limites mais altos"]
    else if Qle_bool (6 # 10) probabilidade then
      ["⚠️ Aprovação com limite conservador";
       "⚠️ Monitoramento mensal recomendado";
       "⚠️ Reavaliação em 6 meses"]
    else
      ["⚠️ Aprovação condicional";
       "⚠️ Exigir garantias ou avalista";
       "⚠️ Limite reduzido inicialmente"]
  else
    (["❌ Crédito negado no momento";
     "📚 Orientar sobre melhoria do score";
     "🔄 Reavaliação possível em 3-6 meses"]
     ++ (if score_credito e <? 500 then [foco_score] else []))
    ++ (if renda e <? 2000 then [foco_renda] else []).

(** The item a scoring appends to the session history. *)
Definition item_historico {P : Pandas} (e : Entrada) (probabilidade : Q)
    (decisao : Z) : ItemHistorico :=
  {| hora := (agora_historico e / 1000000) mod 86400;
     resultado := rotulo (decisao =? 1);
     probabilidade_hist := probabilidade |}.

(** What the sidebar shows for a history. *)
Definition elemento_historico {P : Pandas} (h : list ItemHistorico) : Elemento :=
  match h with
  | [] => SemHistorico
  | _ => TabelaHistorico h
  end.

(** Every column of the frame has as many cells as the frame has rows. *)
Definition retangular (df : DataFrame) : Prop :=
  Forall (fun c : Coluna => List.length (snd c) = n_linhas df) df.

(** A log whose first line carries a timestamp that is not a date: pandas
    keeps such a column as text. *)
Definition log_data_invalida : DataFrame :=
  [("timestamp", [Texto "ontem"]); ("idade", [Num 40]); ("renda", [Num 3000]);
   ("score_credito", [Num 600]); ("experiencia_credito", [Num 1]);
   ("probabilidade", [Num (1 # 2)]); ("predicao", [Num 1])].

Definition estado_data_invalida : Estado :=
  {| arquivo_log := Some log_data_invalida; log_gravavel := true;
     historico := []; df_log := []; tela := [] |}.

Definition entrada_sem_botao : Entrada :=
  {| idade := 35; renda := 5000; score_credito := 650; experiencia_credito := 2;
     botao_analisar := false; uploaded_file := Some tabela_embaralhada;
     agora_drift := 1000; agora_historico := 2000; agora_log := 3000 |}.

(** The handler about to run on a log of another schema, already loaded. *)
Definition estado_esquema_antigo : Estado :=
  {| arquivo_log := Some log_antigo; log_gravavel := true; historico := [];
     df_log := log_antigo; tela := [] |}.

(** How an execution ends: an exception that reached the top is shown as a
    traceback. *)
Definition fechar {P : Pandas} (r : option unit * Estado) : Estado :=
  match r with
  | (Some _, s') => s'
  | (None, s') =>
      {| arquivo_log := arquivo_log s'; log_gravavel := log_gravavel s';
         historico := historico s'; df_log := df_log s';
         tela := tela s' ++ [Traceback] |}
  end.

(** The state in which the sidebar is drawn: the log loaded into [df_log] on
    a blank page. *)
Definition apos_carga {P : Pandas} (s : Estado) : Estado :=
  {| arquivo_log := arquivo_log s; log_gravavel := log_gravavel s;
     historico := historico s;
     df_log := carregar_log_predicoes (arquivo_log s); tela := [] |}.

(** What follows the sidebar: the handler of the button, then the batch
    block. *)
Definition apos_barra {P : Pandas} (m : Modelo) (e : Entrada) : M unit :=
  (if botao_analisar e then analisar_credito m e else ret tt) ;;
  match uploaded_file e with
  | Some arquivo => analise_lote m arquivo
  | None => ret tt
  end.

(** The seven elements that make up the result of a scoring, in the order
    in which they are drawn. *)
Definition elementos_resultado {P : Pandas} (e : Entrada) (probabilidade : Q)
    (decisao : option Z) : list Elemento :=
  [MetricaDecisao (igual_a_1 decisao);
   MetricaProbabilidade probabilidade;
   MetricaRisco (fst (categorizar_risco probabilidade));
   Gauge probabilidade;
   Interpretacao
     (if igual_a_1 decisao then
        if Qle_bool (7 # 10) probabilidade then "success-message"
        else "warning-message"
      else "danger-message");
   Fatores (impactos e);
   Recomendacoes (recomendacoes e probabilidade (igual_a_1 decisao))].

(** The state right after the log write of a scoring. *)
Definition apos_gravacao {P : Pandas} (e : Entrada) (probabilidade : Q)
    (decisao : Z) (s : Estado) : Estado :=
  {| arquivo_log :=
       Some (to_csv (concat (df_log s) (nova_linha e probabilidade decisao)));
     log_gravavel := log_gravavel s;
     historico := historico s ++ [item_historico e probabilidade decisao];
     df_log := concat (df_log s) (nova_linha e probabilidade decisao);
     tela := tela s |}.

(** The state in which a failed log write leaves the handler. *)
Definition apos_falha_gravacao {P : Pandas} (e : Entrada) (probabilidade : Q)
    (decisao : Z) (s : Estado) : Estado :=
  {| arquivo_log := arquivo_log s;
     log_gravavel := log_gravavel s;
     historico := historico s ++ [item_historico e probabilidade decisao];
     df_log := concat (df_log s) (nova_linha e probabilidade decisao);
     tela := tela s |}.

(** The page with more elements drawn on it. *)
Definition desenhar {P : Pandas} (els : list Elemento) (s : Estado) : Estado :=
  {| arquivo_log := arquivo_log s; log_gravavel := log_gravavel s;
     historico := historico s; df_log := df_log s; tela := tela s ++ els |}.

(** What the batch block draws for an uploaded file. *)
Definition pagina_lote {P : Pandas} (m : Modelo) (arquivo : Arquivo)
  : list Elemento :=
  match read_csv [] arquivo with
  | Some df_lote =>
      match pontuar_lote m df_lote with
      | Some df => [TabelaLote df; Download (to_csv df)]
      | None => [ErroLote]
      end
  | None => [ErroLote]
  end.

(** What the handler of the button draws when the log can be written. *)
Definition pagina_analise {P : Pandas} (m : Modelo) (e : Entrada)
  : list Elemento :=
  if botao_analisar e then
    match predizer m (dados_cliente e) with
    | Some (p, d) => elementos_resultado e p (Some d)
    | None => [ErroPredicao]
    end
  else [].

Definition pagina_envio {P : Pandas} (m : Modelo) (e : Entrada)
  : list Elemento :=
  match uploaded_file e with
  | Some arquivo => pagina_lote m arquivo
  | None => []
  end.

(** ** Properties *)

(** *** Risk bands *)

Lemma Qle_bool_false : forall a b : Q, Qle_bool a b = false <-> (b < a)%Q.
Proof.
  intros a b. split.
  - intros E. apply Qnot_le_lt. intros H. apply Qle_bool_iff in H. congruence.
  - intros H. destruct (Qle_bool a b) eqn:E; [|reflexivity].
    apply Qle_bool_iff in E. exfalso. exact (Qlt_not_le _ _ H E).
Qed.

(** C1: for every probability p, categorizar_risco answers Baixo Risco iff
    p >= 0.7, Risco Medio iff 0.4 <= p < 0.7 and Alto Risco iff p < 0.4; the
    answer depends on the value of p alone (equal probabilities, however
    represented, get the same answer). *)
Theorem categorizar_risco_faixas :
  forall p : Q,
    (fst (categorizar_risco p) = "Baixo Risco" <-> (7 # 10 <= p)%Q)
    /\ (fst (categorizar_risco p) = "Risco Médio"
        <-> ((4 # 10 <= p)%Q /\ (p < 7 # 10)%Q))
    /\ (fst (categorizar_risco p) = "Alto Risco" <-> (p < 4 # 10)%Q)
    /\ (forall q, (p == q)%Q -> categorizar_risco q = categorizar_risco p).
Proof.
  intros p.
  assert (Hval : forall q, (p == q)%Q -> categorizar_risco q = categorizar_risco p).
  { intros q Hq. unfold categorizar_risco.
    assert (H7 : Qle_bool (7 # 10) q = Qle_bool (7 # 10) p)
      by (apply Qleb_comp; [reflexivity | symmetry; exact Hq]).
    assert (H4 : Qle_bool (4 # 10) q = Qle_bool (4 # 10) p)
      by (apply Qleb_comp; [reflexivity | symmetry; exact Hq]).
    rewrite H7, H4. reflexivity. }
  unfold categorizar_risco in *.
  destruct (Qle_bool (7 # 10) p) eqn:E7.
  - apply Qle_bool_iff in E7.
    assert (E4 : (4 # 10 <= p)%Q).
    { apply Qle_trans with (7 # 10)%Q; [discriminate | exact E7]. }
    cbn [fst]. repeat split; try discriminate; try assumption;
        try (intros _; assumption); try (intros _; reflexivity).
    + intros [_ H]. exfalso. exact (Qlt_not_le _ _ H E7).
    + intros H. exfalso. exact (Qlt_not_le _ _ H E4).
  - apply Qle_bool_false in E7.
    destruct (Qle_bool (4 # 10) p) eqn:E4.
    + apply Qle_bool_iff in E4.
      cbn [fst]. repeat split; try discriminate; try assumption;
        try (intros _; assumption); try (intros _; reflexivity).
      * intros H. exfalso. exact (Qlt_not_le _ _ E7 H).
      * intros H. exfalso. exact (Qlt_not_le _ _ H E4).
    + apply Qle_bool_false in E4.
      cbn [fst]. repeat split; try discriminate; try assumption;
        try (intros _; assumption); try (intros _; reflexivity).
      * intros H. exfalso. exact (Qlt_not_le _ _ E7 H).
      * intros [H _]. exfalso. exact (Qlt_not_le _ _ E4 H).
Qed.

Section Propriedades.

Context {P : Pandas}.

(** *** Computations that only draw on the page *)

Lemma mesmo_mundo_refl : forall s : Estado, mesmo_mundo s s.
Proof. intros s. repeat split. Qed.

Lemma mesmo_mundo_trans :
  forall s1 s2 s3 : Estado,
    mesmo_mundo s1 s2 -> mesmo_mundo s2 s3 -> mesmo_mundo s1 s3.
Proof.
  unfold mesmo_mundo. intros s1 s2 s3 (A1 & B1 & C1 & D1) (A2 & B2 & C2 & D2).
  repeat split; congruence.
Qed.

Lemma preserva_ret : forall (A : Type) (a : A), preserva (ret a).
Proof. intros A a s. apply mesmo_mundo_refl. Qed.

Lemma preserva_levantar : forall A : Type, preserva (@levantar P A).
Proof. intros A s. apply mesmo_mundo_refl. Qed.

Lemma preserva_ou_levantar : forall (A : Type) (o : option A), preserva (ou_levantar o).
Proof. intros A [a|]; [apply preserva_ret | apply preserva_levantar]. Qed.

Lemma preserva_ler : preserva ler.
Proof. intros s. apply mesmo_mundo_refl. Qed.

Lemma preserva_mostrar : forall el, preserva (mostrar el).
Proof. intros el s. repeat split. Qed.

Lemma preserva_bind :
  forall (A B : Type) (c : M A) (k : A -> M B),
    preserva c -> (forall a, preserva (k a)) -> preserva (bind c k).
Proof.
  intros A B c k Hc Hk s. unfold bind.
  specialize (Hc s). destruct (c s) as [[a|] s1]; cbn [snd] in *.
  - eapply mesmo_mundo_trans; [exact Hc | apply Hk].
  - exact Hc.
Qed.

Lemma preserva_tentar :
  forall (A : Type) (c h : M A), preserva c -> preserva h -> preserva (tentar c h).
Proof.
  intros A c h Hc Hh s. unfold tentar.
  specialize (Hc s). destruct (c s) as [[a|] s1]; cbn [snd] in *.
  - exact Hc.
  - eapply mesmo_mundo_trans; [exact Hc | apply Hh].
Qed.

Create HintDb desenho.

#[local] Hint Resolve preserva_ret preserva_levantar preserva_ou_levantar
  preserva_ler preserva_mostrar preserva_bind preserva_tentar : desenho.

Lemma preserva_fazer_predicao :
  forall m dados, preserva (fazer_predicao m dados).
Proof. intros m dados. unfold fazer_predicao. auto 10 with desenho. Qed.

Lemma preserva_historico_analises : preserva historico_analises.
Proof.
  unfold historico_analises. apply preserva_bind; [apply preserva_ler|].
  intros s. destruct (historico s); apply preserva_mostrar.
Qed.

Lemma preserva_media_coluna : forall nome df, preserva (media_coluna nome df).
Proof. intros nome df. unfold media_coluna. auto 10 with desenho. Qed.

Lemma preserva_monitoramento : forall agora, preserva (monitoramento agora).
Proof.
  intros agora. unfold monitoramento.
  apply preserva_bind; [apply preserva_ler|]. intros s.
  destruct (negb (empty (df_log s)) && tem_coluna "idade" (df_log s));
    [|apply preserva_mostrar].
  apply preserva_bind; [apply preserva_ou_levantar|]. intros ts.
  apply preserva_bind; [apply preserva_ou_levantar|]. intros mascara.
  apply preserva_bind; [|intros; apply preserva_mostrar].
  destruct (negb (empty (filtrar mascara (df_log s)))); apply preserva_media_coluna.
Qed.

Lemma preserva_exibir_resultado :
  forall e p d, preserva (exibir_resultado e p d).
Proof. intros e p d. unfold exibir_resultado. auto 20 with desenho. Qed.

Lemma preserva_analise_lote : forall m a, preserva (analise_lote m a).
Proof. intros m a. unfold analise_lote. auto 20 with desenho. Qed.

(** A computation whose exceptions are all caught. *)
Lemma tentar_mostrar_retorna :
  forall (c : M unit) el s, fst (tentar c (mostrar el) s) = Some tt.
Proof.
  intros c el s. unfold tentar. destruct (c s) as [[[]|] s1]; reflexivity.
Qed.

(** *** Batch scoring leaves the log alone *)

(** C7: batch scoring never writes to the prediction log.  The batch block
    always completes (with a table or with an error message) and leaves the
    log file, the in-memory log frame and the session history exactly as
    they were; and a whole execution of the script with an uploaded table
    ends with the same log file, log frame and history as the same execution
    without the upload. *)
Theorem lote_nao_grava_log :
  forall (m : Modelo) (arquivo : Arquivo) (pkl : option Modelo)
         (e : Entrada) (s : Estado),
    fst (analise_lote m arquivo s) = Some tt
    /\ arquivo_log (snd (analise_lote m arquivo s)) = arquivo_log s
    /\ df_log (snd (analise_lote m arquivo s)) = df_log s
    /\ historico (snd (analise_lote m arquivo s)) = historico s
    /\ mesmo_mundo (executar pkl (sem_upload e) s) (executar pkl e s).
Proof.
  intros m arquivo pkl e s.
  split; [apply tentar_mostrar_retorna|].
  destruct (preserva_analise_lote m arquivo s) as (Ha & _ & Hh & Hd).
  repeat (split; [assumption|]).
  unfold executar.
  destruct pkl as [modelo|]; [|apply mesmo_mundo_refl].
  cbv beta delta [script bind ler definir_df_log carregar_modelo ret].
  cbn [sem_upload uploaded_file botao_analisar agora_drift
       arquivo_log log_gravavel historico df_log tela].
  change (analisar_credito modelo (sem_upload e)) with (analisar_credito modelo e).
  destruct (historico_analises _) as [[[]|] s1]; [|apply mesmo_mundo_refl].
  destruct (monitoramento (agora_drift e) s1) as [[[]|] s2];
    [|apply mesmo_mundo_refl].
  destruct ((if botao_analisar e then analisar_credito modelo e
             else fun s0 : Estado => (Some tt, s0)) s2)
    as [[[]|] s3]; [|apply mesmo_mundo_refl].
  destruct (uploaded_file e) as [a|]; [|apply mesmo_mundo_refl].
  pose proof (tentar_mostrar_retorna
                (df_lote <- ou_levantar (read_csv [] a) ;;
                 df <- ou_levantar (pontuar_lote modelo df_lote) ;;
                 mostrar (TabelaLote df) ;; mostrar (Download (to_csv df)))
                ErroLote s3) as Hr.
  pose proof (preserva_analise_lote modelo a s3) as Hp.
  unfold analise_lote in *.
  destruct (tentar _ _ s3) as [r s4]. cbn [fst snd] in *. subst r.
  exact Hp.
Qed.

(** *** A failed prediction changes nothing *)

Lemma fazer_predicao_falha :
  forall m dados s,
    option_map fst (fst (fazer_predicao m dados s)) = Some None ->
    predizer m dados = None.
Proof.
  intros m dados s. unfold fazer_predicao, tentar, bind, ou_levantar.
  destruct (predizer m dados) as [[p d]|]; [|reflexivity].
  cbn. discriminate.
Qed.

(** C10: when fazer_predicao returns None for the probability, the scoring
    handler appends nothing to the session history, does not write the log
    file, leaves df_log alone, and draws nothing but the error message: no
    decision, probability or risk category appears. *)
Theorem falha_de_predicao_atomica :
  forall (m : Modelo) (e : Entrada) (s : Estado),
    option_map fst (fst (fazer_predicao m (dados_cliente e) s)) = Some None ->
    fst (analisar_credito m e s) = Some tt
    /\ historico (snd (analisar_credito m e s)) = historico s
    /\ arquivo_log (snd (analisar_credito m e s)) = arquivo_log s
    /\ df_log (snd (analisar_credito m e s)) = df_log s
    /\ tela (snd (analisar_credito m e s)) = tela s ++ [ErroPredicao]
    /\ filter e_resultado (tela (snd (analisar_credito m e s)))
       = filter e_resultado (tela s).
Proof.
  intros m e s H. apply fazer_predicao_falha in H.
  unfold analisar_credito, fazer_predicao, tentar, bind, ou_levantar.
  rewrite H. cbn.
  repeat split. rewrite filter_app. cbn. apply app_nil_r.
Qed.

(** *** Frames of log entries *)

Lemma lote_map :
  forall (A B C : Type) (f : B -> option C) (g : A -> B) (h : A -> C) (l : list A),
    (forall x, f (g x) = Some (h x)) -> lote f (map g l) = Some (map h l).
Proof.
  intros A B C f g h l H. induction l as [|x l IH]; cbn.
  - reflexivity.
  - rewrite H, IH. reflexivity.
Qed.

Lemma mascarar_map :
  forall (A B : Type) (f : A -> bool) (g : A -> B) (l : list A),
    mascarar (map f l) (map g l) = map g (filter f l).
Proof.
  intros A B f g l. induction l as [|x l IH]; cbn.
  - reflexivity.
  - destruct (f x); cbn; rewrite IH; reflexivity.
Qed.

Lemma filtrar_quadro_log :
  forall (f : LogEntry -> bool) (es : list LogEntry),
    filtrar (map f es) (quadro_log es) = quadro_log (filter f es).
Proof.
  intros f es. unfold filtrar, quadro_log. cbn [map fst snd].
  rewrite !mascarar_map. reflexivity.
Qed.

Lemma empty_quadro_log :
  forall es : list LogEntry,
    empty (quadro_log es) = match es with [] => true | _ => false end.
Proof. intros [|e es]; reflexivity. Qed.

Lemma soma_validos_idades :
  forall es : list LogEntry,
    exists q,
      soma_validos (map (fun e => Num (inject_Z (log_idade e))) es)
      = Some (q, List.length es)
      /\ (q == inject_Z (soma_idades es))%Q.
Proof.
  induction es as [|e es (q & Hq & Eq)].
  - exists 0%Q. split; reflexivity.
  - exists (inject_Z (log_idade e) + q)%Q. cbn [map soma_validos]. rewrite Hq.
    split; [reflexivity|].
    cbn [soma_idades fold_right]. rewrite inject_Z_plus, Eq. reflexivity.
Qed.

Lemma media_coluna_quadro :
  forall (e0 : LogEntry) (es : list LogEntry) (s : Estado),
    exists q,
      media_coluna "idade" (quadro_log (e0 :: es)) s = (Some (Num q), s)
      /\ (q == media_idade (e0 :: es))%Q.
Proof.
  intros e0 es s.
  destruct (soma_validos_idades (e0 :: es)) as (q & Hq & Eq).
  exists (q / inject_Z (Z.of_nat (List.length (e0 :: es))))%Q.
  split.
  - unfold media_coluna, bind, ou_levantar.
    change (coluna "idade" (quadro_log (e0 :: es)))
      with (Some (map (fun e => Num (inject_Z (log_idade e))) (e0 :: es))).
    unfold ret at 1. unfold mean. rewrite Hq. reflexivity.
  - unfold media_idade. rewrite Eq. reflexivity.
Qed.

Lemma monitoramento_quadro :
  forall (agora : Z) (es : list LogEntry) (s : Estado),
    df_log s = quadro_log es ->
    exists el,
      monitoramento agora s = mostrar el s
      /\ match es with
         | [] => el = SemDadosDrift
         | _ => exists q, el = MetricaIdade (Num q)
                          /\ (q == media_idade (janela agora es))%Q
         end.
Proof.
  intros agora es s H. unfold monitoramento. unfold bind at 1. unfold ler.
  rewrite H, empty_quadro_log.
  destruct es as [|e0 es].
  - exists SemDadosDrift. split; reflexivity.
  - change (tem_coluna "idade" (quadro_log (e0 :: es))) with true.
    cbn [negb andb].
    change (coluna "timestamp" (quadro_log (e0 :: es)))
      with (Some (map (fun e => Data (log_timestamp e)) (e0 :: es))).
    unfold bind at 1. unfold ou_levantar at 1. unfold ret at 1.
    rewrite (lote_map _ _ _ (comparar_ts (agora - trinta_dias))
               (fun e => Data (log_timestamp e))
               (fun e => agora - trinta_dias <=? log_timestamp e))
      by reflexivity.
    unfold bind at 1. unfold ou_levantar at 1. unfold ret at 1.
    rewrite filtrar_quadro_log, empty_quadro_log.
    fold (recentes agora (e0 :: es)).
    unfold janela.
    destruct (recentes agora (e0 :: es)) as [|r0 rs]; cbn [negb].
    + destruct (media_coluna_quadro e0 es s) as (q & Hq & Eq).
      exists (MetricaIdade (Num q)). unfold bind. rewrite Hq.
      split; [reflexivity|]. exists q. split; [reflexivity | exact Eq].
    + destruct (media_coluna_quadro r0 rs s) as (q & Hq & Eq).
      exists (MetricaIdade (Num q)). unfold bind. rewrite Hq.
      split; [reflexivity|]. exists q. split; [reflexivity | exact Eq].
Qed.

(** C4: on a log holding the entries es, the drift monitor shows the mean of
    idade over the entries whose timestamp lies within the last 30 days
    before now; when the log is not empty and no entry lies in that window,
    it shows the mean of idade over the whole log; when the log is empty, it
    shows the insufficient-data caption and no number. *)
Theorem monitoramento_media_30d :
  forall (agora : Z) (es : list LogEntry) (arq : option Arquivo) (g : bool)
         (h : list ItemHistorico) (t : list Elemento),
    exists el,
      monitoramento agora
        {| arquivo_log := arq; log_gravavel := g; historico := h;
           df_log := quadro_log es; tela := t |}
      = (Some tt,
         {| arquivo_log := arq; log_gravavel := g; historico := h;
            df_log := quadro_log es; tela := t ++ [el] |})
      /\ match es, recentes agora es with
         | [], _ => el = SemDadosDrift
         | _ :: _, [] =>
             exists q, el = MetricaIdade (Num q) /\ (q == media_idade es)%Q
         | _ :: _, r =>
             exists q, el = MetricaIdade (Num q) /\ (q == media_idade r)%Q
         end.
Proof.
  intros agora es arq g h t.
  destruct (monitoramento_quadro agora es
              {| arquivo_log := arq; log_gravavel := g; historico := h;
                 df_log := quadro_log es; tela := t |} eq_refl)
    as (el & Hm & Hel).
  exists el. split; [exact Hm|].
  destruct es as [|e0 es]; [exact Hel|].
  unfold janela in Hel.
  destruct (recentes agora (e0 :: es)); exact Hel.
Qed.

(** For entries stamped no later than now, being recent is lying in the
    window of the last 30 days. *)
Lemma recentes_intervalo :
  forall (agora : Z) (es : list LogEntry),
    Forall (fun e => log_timestamp e <= agora) es ->
    recentes agora es
    = filter (fun e => (agora - trinta_dias <=? log_timestamp e)
                       && (log_timestamp e <=? agora)) es.
Proof.
  intros agora es H. unfold recentes. induction H as [|e es He _ IH].
  - reflexivity.
  - cbn [filter]. rewrite IH.
    apply Z.leb_le in He. rewrite He, andb_true_r. reflexivity.
Qed.

(** *** The log across executions *)

Lemma concat_quadro_log :
  forall (es : list LogEntry) (e : Entrada) (p : Q) (d : Z),
    concat (quadro_log es) (nova_linha e p d)
    = quadro_log (es ++ [{| log_timestamp := agora_log e; log_idade := idade e;
                            log_renda := renda e;
                            log_score_credito := score_credito e;
                            log_experiencia_credito := experiencia_credito e;
                            log_probabilidade := p; log_predicao := d |}]).
Proof.
  intros es e p d. unfold quadro_log. rewrite !map_app. reflexivity.
Qed.

Lemma exibir_resultado_retorna :
  forall e p d s, fst (exibir_resultado e p d s) = Some tt.
Proof. reflexivity. Qed.

Lemma historico_analises_retorna :
  forall s, fst (historico_analises s) = Some tt.
Proof.
  intros s. unfold historico_analises, bind, ler.
  destruct (historico s); reflexivity.
Qed.

(** A completed scoring whose log write succeeds. *)
Lemma analisar_credito_grava :
  forall m e s p d,
    predizer m (dados_cliente e) = Some (p, d) ->
    log_gravavel s = true ->
    fst (analisar_credito m e s) = Some tt
    /\ arquivo_log (snd (analisar_credito m e s))
       = Some (to_csv (concat (df_log s) (nova_linha e p d)))
    /\ log_gravavel (snd (analisar_credito m e s)) = true.
Proof.
  intros m e s p d Hp Hg.
  unfold analisar_credito, fazer_predicao, tentar.
  unfold bind at 2. unfold ou_levantar at 1. rewrite Hp.
  cbv beta delta [bind ret ler anexar_historico definir_df_log gravar_log
                  ou_levantar fst snd] iota.
  cbn [arquivo_log log_gravavel historico df_log tela].
  rewrite Hg.
  pose proof (exibir_resultado_retorna e p (Some d)) as Hr.
  pose proof (preserva_exibir_resultado e p (Some d)) as Hw.
  match goal with
  | |- context [exibir_resultado e p (Some d) ?s0] =>
      specialize (Hr s0); specialize (Hw s0);
      destruct (exibir_resultado e p (Some d) s0) as [r s1]
  end.
  cbn [fst snd] in *. destruct Hw as (A1 & B1 & _ & _).
  cbn [arquivo_log log_gravavel] in A1, B1.
  repeat split; assumption.
Qed.

(** One execution with the button pressed and a prediction that succeeds,
    on a log that loads as the entries [es]: the file is replaced by the CSV
    of those entries followed by the new one. *)
Lemma executar_anexa :
  forall m e s es r,
    carregar_log_predicoes (arquivo_log s) = quadro_log es ->
    log_gravavel s = true ->
    botao_analisar e = true ->
    registro m e = Some r ->
    arquivo_log (executar (Some m) e s) = Some (to_csv (quadro_log (es ++ [r])))
    /\ log_gravavel (executar (Some m) e s) = true.
Proof.
  intros m e s es r Hc Hg Hb Hr.
  unfold registro in Hr.
  destruct (predizer m (dados_cliente e)) as [[p d]|] eqn:Hp; [|discriminate].
  injection Hr as <-.
  remember (executar (Some m) e s) as sf eqn:Hsf.
  unfold executar in Hsf.
  cbv beta delta [script bind ler definir_df_log carregar_modelo ret] in Hsf.
  cbn [arquivo_log log_gravavel historico df_log tela] in Hsf.
  rewrite Hc, Hb in Hsf.
  match type of Hsf with
  | context [historico_analises ?s0] =>
      pose proof (historico_analises_retorna s0) as R1;
      pose proof (preserva_historico_analises s0) as W1;
      destruct (historico_analises s0) as [r1 s1]
  end.
  cbn [fst snd] in *. subst r1. destruct W1 as (A1 & B1 & _ & D1).
  cbn [arquivo_log log_gravavel df_log] in A1, B1, D1.
  destruct (monitoramento_quadro (agora_drift e) es s1 D1) as (el & Hm & _).
  rewrite Hm in Hsf. unfold mostrar at 1 in Hsf.
  match type of Hsf with
  | context [analisar_credito m e ?s0] =>
      destruct (analisar_credito_grava m e s0 p d Hp) as (R2 & A2 & B2);
        [cbn [log_gravavel]; congruence|];
      destruct (analisar_credito m e s0) as [r2 s2]
  end.
  cbn [fst snd df_log] in *. subst r2. rewrite D1, concat_quadro_log in A2.
  destruct (uploaded_file e) as [a|].
  - pose proof (preserva_analise_lote m a s2) as W3.
    assert (R3 : fst (analise_lote m a s2) = Some tt)
      by apply tentar_mostrar_retorna.
    destruct (analise_lote m a s2) as [r3 s3].
    cbn [fst snd] in *. subst r3 sf. destruct W3 as (A3 & B3 & _ & _).
    split; congruence.
  - subst sf. split; assumption.
Qed.

Lemma lote_length :
  forall (A B : Type) (f : A -> option B) (l : list A) (ys : list B),
    lote f l = Some ys -> List.length ys = List.length l.
Proof.
  intros A B f l. induction l as [|x l IH]; cbn; intros ys H.
  - injection H as <-. reflexivity.
  - destruct (f x) as [y|]; [|discriminate].
    destruct (lote f l) as [zs|]; [|discriminate].
    injection H as <-. cbn. f_equal. apply IH. reflexivity.
Qed.

Lemma carregar_apos_gravar :
  forall es : list LogEntry,
    csv_fiel ->
    carregar_log_predicoes (Some (to_csv (quadro_log es))) = quadro_log es.
Proof.
  intros es Hf. unfold carregar_log_predicoes. rewrite Hf. reflexivity.
Qed.

Lemma carregar_ausente_ou_vazio :
  forall arquivo,
    log_ausente_ou_vazio arquivo ->
    carregar_log_predicoes arquivo = quadro_log [].
Proof.
  intros arquivo [-> | (a & -> & Ha)]; unfold carregar_log_predicoes.
  - reflexivity.
  - rewrite Ha. reflexivity.
Qed.

Lemma executar_todas_log :
  forall m entradas regs s es,
    csv_fiel ->
    carregar_log_predicoes (arquivo_log s) = quadro_log es ->
    log_gravavel s = true ->
    forallb botao_analisar entradas = true ->
    lote (registro m) entradas = Some regs ->
    carregar_log_predicoes (arquivo_log (executar_todas (Some m) entradas s))
    = quadro_log (es ++ regs).
Proof.
  intros m entradas. induction entradas as [|e resto IH];
    intros regs s es Hf Hc Hg Hb Hl; cbn in Hl.
  - injection Hl as <-. rewrite app_nil_r. exact Hc.
  - destruct (registro m e) as [r|] eqn:Hr; [|discriminate].
    destruct (lote (registro m) resto) as [rs|] eqn:Hrs; [|discriminate].
    injection Hl as <-.
    cbn [forallb] in Hb. apply andb_true_iff in Hb. destruct Hb as [Hb1 Hb2].
    destruct (executar_anexa m e s es r Hc Hg Hb1 Hr) as [Ha Hg'].
    unfold executar_todas. cbn [fold_left].
    change (fold_left (fun s' e0 => executar (Some m) e0 s') resto
              (executar (Some m) e s))
      with (executar_todas (Some m) resto (executar (Some m) e s)).
    rewrite (IH rs (executar (Some m) e s) (es ++ [r]) Hf).
    + rewrite <- app_assoc. reflexivity.
    + rewrite Ha. apply carregar_apos_gravar. exact Hf.
    + exact Hg'.
    + exact Hb2.
    + reflexivity.
Qed.



(** C9: when the existing log file cannot be parsed, loading gives the empty
    frame with exactly the seven expected columns, the old content being
    dropped; and the next completed scoring then leaves a log file that
    holds the new entry alone. *)
Theorem log_ilegivel_substituido :
  forall (a : Arquivo) (s : Estado),
    arquivo_log s = Some a ->
    read_csv ["timestamp"] a = None ->
    carregar_log_predicoes (arquivo_log s) = df_colunas colunas_log
    /\ nomes (carregar_log_predicoes (arquivo_log s)) = colunas_log
    /\ n_linhas (carregar_log_predicoes (arquivo_log s)) = O
    /\ forall (m : Modelo) (e : Entrada) (r : LogEntry),
         log_gravavel s = true ->
         botao_analisar e = true ->
         registro m e = Some r ->
         arquivo_log (executar (Some m) e s) = Some (to_csv (quadro_log [r])).
Proof.
  intros a s Ha Hr.
  assert (Hc : carregar_log_predicoes (arquivo_log s) = df_colunas colunas_log).
  { unfold carregar_log_predicoes. rewrite Ha, Hr. reflexivity. }
  rewrite Hc. repeat split.
  intros m e r Hg Hb Hreg.
  exact (proj1 (executar_anexa m e s [] r Hc Hg Hb Hreg)).
Qed.

(** *** Columns of a frame after an assignment *)

Lemma coluna_substituir :
  forall (n nome : string) (v : list Cell) (df : DataFrame),
    coluna n (substituir nome v df)
    = if String.eqb nome n then option_map (fun _ => v) (coluna n df)
      else coluna n df.
Proof.
  intros n nome v df. induction df as [|[n0 c0] df IH]; cbn.
  - destruct (String.eqb nome n); reflexivity.
  - destruct (String.eqb nome n0) eqn:E0; cbn [fst].
    + apply String.eqb_eq in E0. subst n0.
      rewrite (String.eqb_sym n nome).
      destruct (String.eqb nome n) eqn:E; [reflexivity | exact IH].
    + destruct (String.eqb n n0) eqn:E1.
      * apply String.eqb_eq in E1. subst n0. rewrite E0. reflexivity.
      * exact IH.
Qed.

Lemma coluna_app :
  forall (n nome : string) (v : list Cell) (df : DataFrame),
    coluna n (df ++ [(nome, v)])
    = match coluna n df with
      | Some c => Some c
      | None => if String.eqb n nome then Some v else None
      end.
Proof.
  intros n nome v df. induction df as [|[n0 c0] df IH]; cbn.
  - reflexivity.
  - destruct (String.eqb n n0); [reflexivity | exact IH].
Qed.

Lemma coluna_atribuir :
  forall (n nome : string) (v : list Cell) (df out : DataFrame),
    atribuir nome v df = Some out ->
    coluna n out = if String.eqb n nome then Some v else coluna n df.
Proof.
  intros n nome v df out. unfold atribuir, tem_coluna.
  destruct (Nat.eqb (List.length v) (n_linhas df)); [|discriminate].
  destruct (coluna nome df) as [c|] eqn:Ec; intros H; injection H as <-.
  - rewrite coluna_substituir, (String.eqb_sym nome n).
    destruct (String.eqb n nome) eqn:E; [|reflexivity].
    apply String.eqb_eq in E. subst n. rewrite Ec. reflexivity.
  - rewrite coluna_app.
    destruct (String.eqb n nome) eqn:E.
    + apply String.eqb_eq in E. subst n. rewrite Ec. reflexivity.
    + destruct (coluna n df); reflexivity.
Qed.

Lemma nomes_substituir :
  forall (nome : string) (v : list Cell) (df : DataFrame),
    nomes (substituir nome v df) = nomes df.
Proof.
  intros nome v df. unfold nomes, substituir. rewrite map_map.
  apply map_ext. intros [n c]. cbn. destruct (String.eqb nome n); reflexivity.
Qed.

Lemma nomes_atribuir :
  forall (nome : string) (v : list Cell) (df out : DataFrame),
    atribuir nome v df = Some out ->
    nomes out = nomes df ++ (if tem_coluna nome df then [] else [nome]).
Proof.
  intros nome v df out. unfold atribuir.
  destruct (Nat.eqb (List.length v) (n_linhas df)); [|discriminate].
  destruct (tem_coluna nome df); intros H; injection H as <-.
  - rewrite nomes_substituir, app_nil_r. reflexivity.
  - unfold nomes. rewrite map_app. reflexivity.
Qed.

Lemma tem_coluna_atribuir :
  forall (n nome : string) (v : list Cell) (df out : DataFrame),
    atribuir nome v df = Some out ->
    String.eqb n nome = false ->
    tem_coluna n out = tem_coluna n df.
Proof.
  intros n nome v df out H E. unfold tem_coluna.
  rewrite (coluna_atribuir n nome v df out H), E. reflexivity.
Qed.

(** What a successful batch scoring is made of. *)
Lemma pontuar_lote_sucesso :
  forall m df out,
    pontuar_lote m df = Some out ->
    exists X proba ps preds df1,
      X_lote df = Some X
      /\ predict_proba m (linhas X) = Some proba
      /\ lote (fun l => nth_error l 1) proba = Some ps
      /\ predict m (linhas X) = Some preds
      /\ atribuir "Probabilidade" (map Num ps) df = Some df1
      /\ atribuir "Resultado" (map (fun d => Texto (rotulo (d =? 1))) preds) df1
         = Some out.
Proof.
  intros m df out. unfold pontuar_lote.
  destruct (X_lote df) as [X|] eqn:EX; [|discriminate].
  destruct (predict_proba m (linhas X)) as [proba|] eqn:Ep; [|discriminate].
  destruct (lote (fun l => nth_error l 1) proba) as [ps|] eqn:Eps;
    [|discriminate].
  destruct (predict m (linhas X)) as [preds|] eqn:Ed; [|discriminate].
  destruct (atribuir "Probabilidade" (map Num ps) df) as [df1|] eqn:E1;
    [|discriminate].
  intros H. exists X, proba, ps, preds, df1. repeat split; assumption.
Qed.

Lemma pontuar_lote_colunas :
  forall m df out,
    pontuar_lote m df = Some out ->
    exists X proba ps preds,
      X_lote df = Some X
      /\ predict_proba m (linhas X) = Some proba
      /\ lote (fun l => nth_error l 1) proba = Some ps
      /\ predict m (linhas X) = Some preds
      /\ forall n,
           coluna n out
           = if String.eqb n "Resultado"
             then Some (map (fun d => Texto (rotulo (d =? 1))) preds)
             else if String.eqb n "Probabilidade" then Some (map Num ps)
                  else coluna n df.
Proof.
  intros m df out H.
  destruct (pontuar_lote_sucesso m df out H)
    as (X & proba & ps & preds & df1 & HX & Hp & Hps & Hd & H1 & H2).
  exists X, proba, ps, preds. repeat (split; [assumption|]).
  intros n. rewrite (coluna_atribuir n _ _ _ _ H2).
  destruct (String.eqb n "Resultado"); [reflexivity|].
  apply (coluna_atribuir n _ _ _ _ H1).
Qed.

(** *** Batch scoring: model input and output table *)

Lemma X_lote_selecao :
  forall df : DataFrame,
    if forallb (fun col => tem_coluna col df) colunas_esperadas
    then exists c1 c2 c3 c4,
        coluna "idade" df = Some c1 /\ coluna "renda" df = Some c2
        /\ coluna "score_credito" df = Some c3
        /\ coluna "experiencia_credito" df = Some c4
        /\ X_lote df = Some [("idade", c1); ("renda", c2); ("score_credito", c3);
                             ("experiencia_credito", c4)]
    else X_lote df = Some df.
Proof.
  intros df. unfold X_lote, selecionar, colunas_esperadas.
  cbn [forallb lote]. unfold tem_coluna.
  destruct (coluna "idade" df) as [c1|]; [|reflexivity].
  destruct (coluna "renda" df) as [c2|]; [|reflexivity].
  destruct (coluna "score_credito" df) as [c3|]; [|reflexivity].
  destruct (coluna "experiencia_credito" df) as [c4|]; [|reflexivity].
  cbn [andb]. exists c1, c2, c3, c4. repeat split.
Qed.

Lemma rotulos_lote :
  forall preds : list Z,
    Forall (fun c => c = Texto "Aprovado" \/ c = Texto "Negado")
           (map (fun d => Texto (rotulo (d =? 1))) preds).
Proof.
  intros preds. apply Forall_forall. intros c Hc.
  apply in_map_iff in Hc. destruct Hc as (d & <- & _).
  destruct (d =? 1); [left | right]; reflexivity.
Qed.

(** C5 (as amended): when all of idade, renda, score_credito and
    experiencia_credito are present the model input is exactly those four
    columns in that order, otherwise it is the whole table unchanged.  When
    scoring succeeds, every column of the input whose name is neither
    Probabilidade nor Resultado is in the output unchanged, the output has a
    column Probabilidade with the model's probabilities and a column
    Resultado whose every value is Aprovado or Negado; the two are appended
    after the input columns when the input has no column of that name, and a
    column of the input that already has one of the two names is
    overwritten. *)
Theorem lote_saida :
  forall (m : Modelo) (df : DataFrame),
    (if forallb (fun col => tem_coluna col df) colunas_esperadas
     then exists c1 c2 c3 c4,
         coluna "idade" df = Some c1 /\ coluna "renda" df = Some c2
         /\ coluna "score_credito" df = Some c3
         /\ coluna "experiencia_credito" df = Some c4
         /\ X_lote df = Some [("idade", c1); ("renda", c2); ("score_credito", c3);
                              ("experiencia_credito", c4)]
     else X_lote df = Some df)
    /\ match pontuar_lote m df with
       | Some out =>
           exists X proba ps preds,
             X_lote df = Some X
             /\ predict_proba m (linhas X) = Some proba
             /\ lote (fun l => nth_error l 1) proba = Some ps
             /\ predict m (linhas X) = Some preds
             /\ (forall n,
                    coluna n out
                    = if String.eqb n "Resultado"
                      then Some (map (fun d => Texto (rotulo (d =? 1))) preds)
                      else if String.eqb n "Probabilidade" then Some (map Num ps)
                           else coluna n df)
             /\ nomes out
                = nomes df ++ filter (fun n => negb (tem_coluna n df))
                                     ["Probabilidade"; "Resultado"]
             /\ (if tem_coluna "Probabilidade" df || tem_coluna "Resultado" df
                 then True
                 else out = df ++ [("Probabilidade", map Num ps);
                                   ("Resultado",
                                    map (fun d => Texto (rotulo (d =? 1))) preds)])
             /\ Forall (fun c => c = Texto "Aprovado" \/ c = Texto "Negado")
                       (map (fun d => Texto (rotulo (d =? 1))) preds)
       | None => True
       end.
Proof.
  intros m df. split; [apply X_lote_selecao|].
  destruct (pontuar_lote m df) as [out|] eqn:H; [|exact I].
  destruct (pontuar_lote_colunas m df out H)
    as (X & proba & ps & preds & HX & Hp & Hps & Hd & Hcol).
  destruct (pontuar_lote_sucesso m df out H)
    as (X' & proba' & ps' & preds' & df1 & HX' & Hp' & Hps' & Hd' & H1 & H2).
  assert (X' = X) by congruence. subst X'.
  assert (proba' = proba) by congruence. subst proba'.
  assert (ps' = ps) by congruence. subst ps'.
  assert (preds' = preds) by congruence. subst preds'.
  exists X, proba, ps, preds.
  repeat (split; [assumption|]).
  assert (Ht : tem_coluna "Resultado" df1 = tem_coluna "Resultado" df)
    by (apply (tem_coluna_atribuir _ _ _ _ _ H1); reflexivity).
  split; [|split; [|apply rotulos_lote]].
  - rewrite (nomes_atribuir _ _ _ _ H2), (nomes_atribuir _ _ _ _ H1), Ht.
    rewrite <- app_assoc. cbn [filter].
    destruct (tem_coluna "Probabilidade" df), (tem_coluna "Resultado" df);
      reflexivity.
  - unfold atribuir in H1, H2. rewrite Ht in H2.
    destruct (tem_coluna "Probabilidade" df); [exact I|].
    destruct (tem_coluna "Resultado" df); [exact I|]. cbn [orb].
    destruct (Nat.eqb (List.length (map Num ps)) (n_linhas df)); [|discriminate].
    injection H1 as <-.
    destruct (Nat.eqb _ _); [|discriminate].
    injection H2 as <-. rewrite <- app_assoc. reflexivity.
Qed.

(** *** Batch scoring against interactive scoring *)

Lemma lote_nth :
  forall (A B : Type) (f : A -> option B) (l : list A) (ys : list B)
         (i : nat) (x : A),
    lote f l = Some ys -> nth_error l i = Some x ->
    exists y, f x = Some y /\ nth_error ys i = Some y.
Proof.
  intros A B f l. induction l as [|x0 l IH]; intros ys i x Hl Hi.
  - destruct i; discriminate.
  - cbn in Hl. destruct (f x0) as [y0|] eqn:E0; [|discriminate].
    destruct (lote f l) as [zs|] eqn:El; [|discriminate].
    injection Hl as <-. destruct i as [|i]; cbn in Hi |- *.
    + injection Hi as <-. exists y0. split; [exact E0 | reflexivity].
    + apply (IH zs i x eq_refl Hi).
Qed.

Lemma nth_error_linhas :
  forall (n1 n2 n3 n4 : string) (c1 c2 c3 c4 : list Cell) (i : nat)
         (a b c d : Cell),
    nth_error c1 i = Some a -> nth_error c2 i = Some b ->
    nth_error c3 i = Some c -> nth_error c4 i = Some d ->
    nth_error (linhas [(n1, c1); (n2, c2); (n3, c3); (n4, c4)]) i
    = Some [a; b; c; d].
Proof.
  intros n1 n2 n3 n4 c1 c2 c3 c4 i a b c d Ha Hb Hc Hd.
  unfold linhas. cbn [n_linhas].
  assert (Hi : (i < List.length c1)%nat)
    by (apply nth_error_Some; congruence).
  rewrite nth_error_map.
  rewrite (nth_error_nth' (seq 0 (List.length c1)) O)
    by (rewrite length_seq; exact Hi).
  rewrite seq_nth by exact Hi. cbn [option_map Nat.add].
  unfold linha. cbn [map snd].
  rewrite (nth_error_nth _ _ Vazio Ha), (nth_error_nth _ _ Vazio Hb),
    (nth_error_nth _ _ Vazio Hc), (nth_error_nth _ _ Vazio Hd).
  reflexivity.
Qed.

Lemma fazer_predicao_sucesso :
  forall m dados p d s,
    predizer m dados = Some (p, d) ->
    fazer_predicao m dados s = (Some (Some p, Some d), s).
Proof.
  intros m dados p d s H.
  unfold fazer_predicao, tentar, bind, ou_levantar. rewrite H. reflexivity.
Qed.

Lemma celula_some :
  forall nome i df v,
    celula nome i df = Some v ->
    exists c, coluna nome df = Some c /\ nth_error c i = Some v.
Proof.
  intros nome i df v. unfold celula.
  destruct (coluna nome df) as [c|]; [|discriminate].
  intros H. exists c. split; [reflexivity | exact H].
Qed.

(** C6: for every table that has the four expected columns by name, at
    whatever positions and among whatever other columns, and every row of
    it: the probability and the decision label that batch scoring writes
    for that row are those that fazer_predicao returns for the four cells
    of that row taken by column name, in the order idade, renda,
    score_credito, experiencia_credito.  The classifier is taken to score
    each row independently of the rest of the table. *)
Theorem lote_igual_interativo :
  forall (m : Modelo) (df out : DataFrame) (i : nat) (a b c d : Cell)
         (s : Estado),
    por_linha m ->
    forallb (fun col => tem_coluna col df) colunas_esperadas = true ->
    pontuar_lote m df = Some out ->
    celula "idade" i df = Some a ->
    celula "renda" i df = Some b ->
    celula "score_credito" i df = Some c ->
    celula "experiencia_credito" i df = Some d ->
    exists p dec,
      fazer_predicao m [[a; b; c; d]] s = (Some (Some p, Some dec), s)
      /\ celula "Probabilidade" i out = Some (Num p)
      /\ celula "Resultado" i out = Some (Texto (rotulo (dec =? 1))).
Proof.
  intros m df out i a b c d s (f & g & Hfg) Hall Hout Ha Hb Hc Hd.
  destruct (pontuar_lote_colunas m df out Hout)
    as (X & proba & ps & preds & HX & Hp & Hps & Hpr & Hcol).
  pose proof (X_lote_selecao df) as Hsel. rewrite Hall in Hsel.
  destruct Hsel as (c1 & c2 & c3 & c4 & E1 & E2 & E3 & E4 & HX').
  rewrite HX in HX'. injection HX' as ->.
  destruct (celula_some _ _ _ _ Ha) as (k1 & K1 & Na).
  destruct (celula_some _ _ _ _ Hb) as (k2 & K2 & Nb).
  destruct (celula_some _ _ _ _ Hc) as (k3 & K3 & Nc).
  destruct (celula_some _ _ _ _ Hd) as (k4 & K4 & Nd).
  assert (k1 = c1) by congruence. assert (k2 = c2) by congruence.
  assert (k3 = c3) by congruence. assert (k4 = c4) by congruence.
  subst k1 k2 k3 k4.
  pose proof (nth_error_linhas "idade" "renda" "score_credito"
                "experiencia_credito" c1 c2 c3 c4 i a b c d Na Nb Nc Nd) as Hrow.
  set (X := [("idade", c1); ("renda", c2); ("score_credito", c3);
             ("experiencia_credito", c4)]) in *.
  assert (Hne : linhas X <> []).
  { intros E. rewrite E in Hrow. destruct i; discriminate. }
  destruct (Hfg (linhas X) Hne) as [Hf Hg].
  rewrite Hf in Hp. rewrite Hg in Hpr.
  destruct (lote_nth _ _ _ _ _ _ _ Hp Hrow) as (y & Hy & Ny).
  destruct (lote_nth _ _ _ _ _ _ _ Hps Ny) as (p & Hyp & Np).
  destruct (lote_nth _ _ _ _ _ _ _ Hpr Hrow) as (dec & Hdec & Ndec).
  exists p, dec. split; [|split].
  - apply fazer_predicao_sucesso. unfold predizer.
    destruct (Hfg [[a; b; c; d]]) as [Hf1 Hg1]; [discriminate|].
    rewrite Hf1, Hg1. cbn [lote]. rewrite Hy, Hdec. cbn [nth_error].
    cbn [nth_error] in Hyp. rewrite Hyp. reflexivity.
  - unfold celula. rewrite Hcol. cbn [String.eqb Ascii.eqb Bool.eqb].
    rewrite nth_error_map, Np. reflexivity.
  - unfold celula. rewrite Hcol. cbn [String.eqb Ascii.eqb Bool.eqb].
    rewrite nth_error_map, Ndec. reflexivity.
Qed.

(** *** The approval cut *)

Lemma decisao_no_corte :
  forall (d : Z) (p : Q),
    (d = 1 <-> (1 # 2 <= p)%Q) -> (d =? 1) = Qle_bool (1 # 2) p.
Proof.
  intros d p H. destruct (Qle_bool (1 # 2) p) eqn:E.
  - apply Z.eqb_eq, H, Qle_bool_iff, E.
  - apply Z.eqb_neq. intros Hd. apply H, Qle_bool_iff in Hd. congruence.
Qed.

Lemma lote_Forall2 :
  forall (A B : Type) (f : A -> option B) (l : list A) (ys : list B),
    lote f l = Some ys -> Forall2 (fun x y => f x = Some y) l ys.
Proof.
  intros A B f l. induction l as [|x l IH]; cbn; intros ys H.
  - injection H as <-. constructor.
  - destruct (f x) as [y|] eqn:E; [|discriminate].
    destruct (lote f l) as [zs|]; [|discriminate].
    injection H as <-. constructor; [exact E | apply IH; reflexivity].
Qed.

Lemma celulas_no_corte_lote :
  forall (proba : list (list Q)) (ps : list Q) (preds : list Z),
    Forall2 (fun l p => nth_error l 1 = Some p) proba ps ->
    Forall2 (fun l d => forall p, nth_error l 1 = Some p ->
                                  (d = 1 <-> (1 # 2 <= p)%Q)) proba preds ->
    Forall2 celulas_no_corte (map Num ps)
            (map (fun d => Texto (rotulo (d =? 1))) preds).
Proof.
  intros proba ps preds H1. revert preds.
  induction H1 as [|l p proba ps Hl _ IH]; intros preds H2.
  - inversion H2. constructor.
  - inversion H2 as [|l' d proba' preds' Hd Hrest]; subst. cbn [map].
    constructor; [|apply IH; exact Hrest].
    exists p. split; [reflexivity|].
    rewrite (decisao_no_corte d p (Hd p Hl)).
    destruct (Qle_bool (1 # 2) p) eqn:E; cbn [rotulo].
    + apply Qle_bool_iff in E. split; split; try discriminate;
        try (intros _; exact E); try (intros _; reflexivity).
      intros Hlt. exfalso. exact (Qlt_not_le _ _ Hlt E).
    + apply Qle_bool_false in E. split; split; try discriminate;
        try (intros _; exact E); try (intros _; reflexivity).
      intros Hle. exfalso. exact (Qlt_not_le _ _ E Hle).
Qed.

(** C2: for a classifier whose predict is the 0.5 cut of its predict_proba,
    the decision fazer_predicao returns for a record is 1 (approved) exactly
    when the probability it returns is at least 0.5, and on every row of a
    batch the column Resultado says Aprovado exactly when the column
    Probabilidade is at least 0.5 and Negado exactly when it is below: the
    interactive path and the batch path apply one and the same cut. *)
Theorem limiar_unico :
  forall (m : Modelo) (dados : list (list Cell)) (df : DataFrame) (s : Estado),
    corte_05 m ->
    match fazer_predicao m dados s with
    | (Some (Some p, Some d), _) =>
        (d = 1 <-> (1 # 2 <= p)%Q) /\ igual_a_1 (Some d) = Qle_bool (1 # 2) p
    | _ => True
    end
    /\ match pontuar_lote m df with
       | Some out =>
           exists cp cr,
             coluna "Probabilidade" out = Some cp
             /\ coluna "Resultado" out = Some cr
             /\ Forall2 celulas_no_corte cp cr
       | None => True
       end.
Proof.
  intros m dados df s Hcut. split.
  - unfold fazer_predicao, tentar, bind, ou_levantar.
    destruct (predizer m dados) as [[p d]|] eqn:Hp; [|exact I].
    cbn. unfold predizer in Hp.
    destruct (predict_proba m dados) as [proba|] eqn:E1; [|discriminate].
    destruct (nth_error proba 0) as [l|] eqn:E2; [|discriminate].
    destruct (nth_error l 1) as [p'|] eqn:E3; [|discriminate].
    destruct (predict m dados) as [preds|] eqn:E4; [|discriminate].
    destruct (nth_error preds 0) as [d'|] eqn:E5; [|discriminate].
    injection Hp as -> ->.
    pose proof (Hcut dados proba preds E1 E4) as HF.
    destruct HF as [|l0 d0 proba0 preds0 H0 _]; [discriminate|].
    cbn in E2, E5. injection E2 as ->. injection E5 as ->.
    split; [exact (H0 p E3) | exact (decisao_no_corte d p (H0 p E3))].
  - destruct (pontuar_lote m df) as [out|] eqn:H; [|exact I].
    destruct (pontuar_lote_colunas m df out H)
      as (X & proba & ps & preds & HX & Hp & Hps & Hd & Hcol).
    exists (map Num ps), (map (fun d => Texto (rotulo (d =? 1))) preds).
    split; [rewrite Hcol; reflexivity|].
    split; [rewrite Hcol; reflexivity|].
    apply (celulas_no_corte_lote proba).
    + apply lote_Forall2. exact Hps.
    + exact (Hcut (linhas X) proba preds Hp Hd).
Qed.

(** A completed prediction whose log write fails: the exception leaves the
    handler before anything of the result is drawn, with the history item
    already appended. *)
Lemma analisar_credito_falha_escrita :
  forall m e s p d,
    predizer m (dados_cliente e) = Some (p, d) ->
    log_gravavel s = false ->
    fst (analisar_credito m e s) = None
    /\ tela (snd (analisar_credito m e s)) = tela s
    /\ arquivo_log (snd (analisar_credito m e s)) = arquivo_log s
    /\ historico (snd (analisar_credito m e s))
       = historico s ++ [{| hora := (agora_historico e / 1000000) mod 86400;
                            resultado := rotulo (d =? 1);
                            probabilidade_hist := p |}].
Proof.
  intros m e s p d Hp Hg.
  unfold analisar_credito, fazer_predicao, tentar.
  unfold bind at 2. unfold ou_levantar at 1. rewrite Hp.
  cbv beta delta [bind ret ler anexar_historico definir_df_log gravar_log
                  ou_levantar fst snd] iota.
  cbn [arquivo_log log_gravavel historico df_log tela].
  rewrite Hg. repeat split.
Qed.

End Propriedades.

(** ** The script on concrete collaborators *)

Lemma classificador_corte_05 :
  forall prob : list Cell -> option Q, corte_05 (classificador prob).
Proof.
  intros prob X proba preds. unfold classificador. cbn [predict_proba predict].
  destruct X as [|x0 X0]; [discriminate|].
  generalize (x0 :: X0). clear x0 X0. intros X. revert proba preds.
  induction X as [|x X IH]; intros proba preds Hp Hd; cbn in Hp, Hd.
  - injection Hp as <-. injection Hd as <-. constructor.
  - destruct (prob x) as [q|]; [|discriminate]. cbn in Hp, Hd.
    destruct (lote _ X) as [ls|] eqn:E1 in Hp; [|discriminate].
    destruct (lote _ X) as [ds|] eqn:E2 in Hd; [|discriminate].
    injection Hp as <-. injection Hd as <-.
    constructor; [|apply IH; assumption].
    intros p Hn. cbn in Hn. injection Hn as ->.
    destruct (Qle_bool (1 # 2) p) eqn:E.
    + apply Qle_bool_iff in E. split; [intros _; exact E | reflexivity].
    + apply Qle_bool_false in E. split; [discriminate|].
      intros H. exfalso. exact (Qlt_not_le _ _ E H).
Qed.

Lemma classificador_por_linha :
  forall prob : list Cell -> option Q, por_linha (classificador prob).
Proof.
  intros prob.
  exists (fun l => option_map (fun p => [(1 - p)%Q; p]) (prob l)),
         (fun l => option_map (fun p => if Qle_bool (1 # 2) p then 1 else 0)
                              (prob l)).
  intros [|x X] H; [contradiction|]. split; reflexivity.
Qed.

Lemma csv_fiel_celulas : @csv_fiel pandas_celulas.
Proof. intros es. reflexivity. Qed.

Example categorizar_07 : categorizar_risco (7 # 10) = ("Baixo Risco", "success").
Proof. reflexivity. Qed.

Example categorizar_04 : categorizar_risco (4 # 10) = ("Risco Médio", "warning").
Proof. reflexivity. Qed.

Example categorizar_039 : categorizar_risco (39 # 100) = ("Alto Risco", "danger").
Proof. reflexivity. Qed.

Example pontuar_tabela_embaralhada :
  pontuar_lote modelo_exemplo tabela_embaralhada = Some saida_embaralhada.
Proof. reflexivity. Qed.

Example duas_analises :
  arquivo_log
    (executar_todas (Some modelo_exemplo) [entrada_padrao; entrada_jovem]
       estado_inicial)
  = Some (quadro_log registros_exemplo).
Proof. reflexivity. Qed.

(** With a writable log the same scoring draws its result. *)
Example analise_com_escrita :
  filter e_resultado
    (tela (executar (Some modelo_exemplo) entrada_padrao estado_inicial))
  = [MetricaDecisao true; MetricaProbabilidade (350 # 550);
     MetricaRisco "Risco Médio"; Gauge (350 # 550);
     Interpretacao "warning-message";
     Fatores ["Positivo"; "Positivo"; "Neutro"; "Positivo"];
     Recomendacoes ["conservador"]].
Proof. reflexivity. Qed.

(** C8: a failed log write should be reported without costing the user the
    scoring result.  In the script the write comes before the result is
    drawn and nothing catches its exception: scoring the default form with
    a log that cannot be written ends the run with a traceback, no decision,
    probability or risk category on the page, and the history item already
    appended. *)
Theorem falha_de_escrita_sem_resultado :
  tela (executar (Some modelo_exemplo) entrada_padrao estado_sem_escrita)
  = [SemHistorico; SemDadosDrift; Traceback]
  /\ filter e_resultado
       (tela (executar (Some modelo_exemplo) entrada_padrao estado_sem_escrita))
     = []
  /\ historico (executar (Some modelo_exemplo) entrada_padrao estado_sem_escrita)
     = [{| hora := 0; resultado := "Aprovado"; probabilidade_hist := 350 # 550 |}]
  /\ arquivo_log (executar (Some modelo_exemplo) entrada_padrao estado_sem_escrita)
     = None.
Proof. repeat split. Qed.

(** C5 without its amendment fails on a table that already has a column
    named Resultado: scoring succeeds, and that column of the input is not
    among the columns of the output. *)
Lemma lote_sobrescreve_resultado :
  pontuar_lote modelo_exemplo tabela_embaralhada = Some saida_embaralhada
  /\ In ("Resultado", [Texto "pendente"; Texto "pendente"]) tabela_embaralhada
  /\ ~ (forall c : Coluna, In c tabela_embaralhada -> In c saida_embaralhada).
Proof.
  split; [reflexivity|]. split; [right; left; reflexivity|].
  intros H.
  specialize (H ("Resultado", [Texto "pendente"; Texto "pendente"])
                (or_intror (or_introl eq_refl))).
  cbn in H.
  repeat (destruct H as [H|H]; [discriminate H|]). exact H.
Qed.

(** Two entries, the first older than 30 days at [agora = 3000000000000]:
    the mean is taken over the second alone; at a time when both are older,
    it is taken over both. *)
Example drift_janela :
  fst (monitoramento 3000000000000
         {| arquivo_log := None; log_gravavel := true; historico := [];
            df_log := quadro_log
                        [{| log_timestamp := 1000; log_idade := 40;
                            log_renda := 0; log_score_credito := 300;
                            log_experiencia_credito := 0;
                            log_probabilidade := 0; log_predicao := 0 |};
                         {| log_timestamp := 2999999999999; log_idade := 20;
                            log_renda := 0; log_score_credito := 300;
                            log_experiencia_credito := 0;
                            log_probabilidade := 0; log_predicao := 0 |}];
            tela := [] |}) = Some tt
  /\ media_idade (janela 3000000000000
                    [{| log_timestamp := 1000; log_idade := 40;
                        log_renda := 0; log_score_credito := 300;
                        log_experiencia_credito := 0;
                        log_probabilidade := 0; log_predicao := 0 |};
                     {| log_timestamp := 2999999999999; log_idade := 20;
                        log_renda := 0; log_score_credito := 300;
                        log_experiencia_credito := 0;
                        log_probabilidade := 0; log_predicao := 0 |}])
     = (20 # 1)%Q
  /\ media_idade (janela 9000000000000
                    [{| log_timestamp := 1000; log_idade := 40;
                        log_renda := 0; log_score_credito := 300;
                        log_experiencia_credito := 0;
                        log_probabilidade := 0; log_predicao := 0 |};
                     {| log_timestamp := 2999999999999; log_idade := 20;
                        log_renda := 0; log_score_credito := 300;
                        log_experiencia_credito := 0;
                        log_probabilidade := 0; log_predicao := 0 |}])
     = (60 # 2)%Q.
Proof. repeat split. Qed.

(** ** The theorems at concrete inputs *)

Lemma categorizar_risco_faixas_witness :
  ((7 # 10) == (70 # 100))%Q
  /\ fst (categorizar_risco (7 # 10)) = "Baixo Risco"
  /\ categorizar_risco (70 # 100) = categorizar_risco (7 # 10).
Proof.
  destruct (categorizar_risco_faixas (7 # 10)) as (Hb & _ & _ & Hv).
  split; [reflexivity|]. split.
  - apply Hb. discriminate.
  - apply Hv. reflexivity.
Defined.

Lemma limiar_unico_witness :
  corte_05 modelo_exemplo
  /\ (match fazer_predicao modelo_exemplo (dados_cliente entrada_padrao)
              estado_inicial with
      | (Some (Some p, Some d), _) =>
          (d = 1 <-> (1 # 2 <= p)%Q) /\ igual_a_1 (Some d) = Qle_bool (1 # 2) p
      | _ => True
      end
      /\ match pontuar_lote modelo_exemplo tabela_embaralhada with
         | Some out =>
             exists cp cr,
               coluna "Probabilidade" out = Some cp
               /\ coluna "Resultado" out = Some cr
               /\ Forall2 celulas_no_corte cp cr
         | None => True
         end).
Proof.
  split.
  - apply classificador_corte_05.
  - apply (limiar_unico modelo_exemplo (dados_cliente entrada_padrao)
             tabela_embaralhada estado_inicial).
    apply classificador_corte_05.
Defined.


Lemma lote_igual_interativo_witness :
  por_linha modelo_exemplo
  /\ forallb (fun col => tem_coluna col tabela_embaralhada) colunas_esperadas = true
  /\ pontuar_lote modelo_exemplo tabela_embaralhada = Some saida_embaralhada
  /\ celula "idade" 1 tabela_embaralhada = Some (Num 19)
  /\ celula "renda" 1 tabela_embaralhada = Some (Num 1500)
  /\ celula "score_credito" 1 tabela_embaralhada = Some (Num 410)
  /\ celula "experiencia_credito" 1 tabela_embaralhada = Some (Num 0)
  /\ exists p dec,
      fazer_predicao modelo_exemplo [[Num 19; Num 1500; Num 410; Num 0]]
        estado_inicial
      = (Some (Some p, Some dec), estado_inicial)
      /\ celula "Probabilidade" 1 saida_embaralhada = Some (Num p)
      /\ celula "Resultado" 1 saida_embaralhada = Some (Texto (rotulo (dec =? 1))).
Proof.
  split; [apply classificador_por_linha|].
  repeat (split; [reflexivity|]).
  apply (lote_igual_interativo modelo_exemplo tabela_embaralhada
           saida_embaralhada 1 (Num 19) (Num 1500) (Num 410) (Num 0)
           estado_inicial).
  - apply classificador_por_linha.
  - reflexivity.
  - reflexivity.
  - reflexivity.
  - reflexivity.
  - reflexivity.
  - reflexivity.
Defined.

Lemma log_ilegivel_substituido_witness :
  arquivo_log estado_log_antigo = Some log_antigo
  /\ @read_csv pandas_celulas ["timestamp"] log_antigo = None
  /\ registro modelo_exemplo entrada_padrao = nth_error registros_exemplo 0
  /\ carregar_log_predicoes (arquivo_log estado_log_antigo)
     = df_colunas colunas_log
  /\ arquivo_log (executar (Some modelo_exemplo) entrada_padrao estado_log_antigo)
     = Some (to_csv (quadro_log (firstn 1 registros_exemplo))).
Proof.
  split; [reflexivity|]. split; [reflexivity|]. split; [reflexivity|].
  destruct (@log_ilegivel_substituido pandas_celulas log_antigo estado_log_antigo
              eq_refl eq_refl) as (Hc & _ & _ & Hs).
  split; [exact Hc|].
  apply (Hs modelo_exemplo entrada_padrao); reflexivity.
Defined.

Lemma falha_de_predicao_atomica_witness :
  option_map fst (fst (fazer_predicao modelo_cinco (dados_cliente entrada_padrao)
                         estado_inicial)) = Some None
  /\ fst (analisar_credito modelo_cinco entrada_padrao estado_inicial) = Some tt
  /\ historico (snd (analisar_credito modelo_cinco entrada_padrao estado_inicial))
     = historico estado_inicial
  /\ arquivo_log (snd (analisar_credito modelo_cinco entrada_padrao estado_inicial))
     = arquivo_log estado_inicial
  /\ df_log (snd (analisar_credito modelo_cinco entrada_padrao estado_inicial))
     = df_log estado_inicial
  /\ tela (snd (analisar_credito modelo_cinco entrada_padrao estado_inicial))
     = tela estado_inicial ++ [ErroPredicao]
  /\ filter e_resultado
       (tela (snd (analisar_credito modelo_cinco entrada_padrao estado_inicial)))
     = filter e_resultado (tela estado_inicial).
Proof.
  split; [reflexivity|].
  apply (falha_de_predicao_atomica modelo_cinco entrada_padrao estado_inicial).
  reflexivity.
Defined.

(** ** Further properties of the script *)

Section Extensoes.

Context {P : Pandas}.

(** *** The stages of an execution *)

Lemma executar_sem_modelo :
  forall (e : Entrada) (s : Estado),
    executar None e s
    = {| arquivo_log := arquivo_log s; log_gravavel := log_gravavel s;
         historico := historico s;
         df_log := carregar_log_predicoes (arquivo_log s);
         tela := [ErroModelo; ErroSemModelo] |}.
Proof. reflexivity. Qed.

Lemma executar_estagios :
  forall (m : Modelo) (e : Entrada) (s : Estado),
    executar (Some m) e s
    = fechar ((monitoramento (agora_drift e) ;; apos_barra m e)
                (snd (mostrar (elemento_historico (historico s)) (apos_carga s)))).
Proof.
  intros m e s. unfold executar, fechar, apos_barra, apos_carga.
  cbv beta delta [script bind ler definir_df_log carregar_modelo ret
                  historico_analises mostrar snd].
  cbn [arquivo_log log_gravavel historico df_log tela app].
  destruct (historico s) as [|h0 hs]; cbn [elemento_historico].
  - destruct (monitoramento _ _) as [[[]|] s2]; [|reflexivity].
    destruct (botao_analisar e).
    + destruct (analisar_credito m e s2) as [[[]|] s3]; reflexivity.
    + reflexivity.
  - destruct (monitoramento _ _) as [[[]|] s2]; [|reflexivity].
    destruct (botao_analisar e).
    + destruct (analisar_credito m e s2) as [[[]|] s3]; reflexivity.
    + reflexivity.
Qed.

Lemma exibir_resultado_desenha :
  forall e p d s,
    exibir_resultado e p d s = (Some tt, desenhar (elementos_resultado e p d) s).
Proof.
  intros e p d s. unfold exibir_resultado, desenhar, elementos_resultado.
  cbv beta delta [bind mostrar] iota.
  cbn [arquivo_log log_gravavel historico df_log tela].
  repeat rewrite <- app_assoc. reflexivity.
Qed.

Lemma analisar_credito_sem_predicao :
  forall m e s,
    predizer m (dados_cliente e) = None ->
    analisar_credito m e s = (Some tt, desenhar [ErroPredicao] s).
Proof.
  intros m e s H.
  unfold analisar_credito, fazer_predicao, tentar, bind, ou_levantar.
  rewrite H. reflexivity.
Qed.

Lemma analisar_credito_gravado :
  forall m e s p d,
    predizer m (dados_cliente e) = Some (p, d) ->
    log_gravavel s = true ->
    analisar_credito m e s
    = (Some tt, desenhar (elementos_resultado e p (Some d)) (apos_gravacao e p d s)).
Proof.
  intros m e s p d Hp Hg.
  unfold analisar_credito, fazer_predicao, tentar.
  unfold bind at 2. unfold ou_levantar at 1. rewrite Hp.
  cbv beta delta [bind ret ler anexar_historico definir_df_log gravar_log
                  ou_levantar fst snd] iota.
  cbn [arquivo_log log_gravavel historico df_log tela].
  rewrite Hg, exibir_resultado_desenha. unfold apos_gravacao. rewrite Hg.
  reflexivity.
Qed.

Lemma analisar_credito_nao_gravado :
  forall m e s p d,
    predizer m (dados_cliente e) = Some (p, d) ->
    log_gravavel s = false ->
    analisar_credito m e s = (None, apos_falha_gravacao e p d s).
Proof.
  intros m e s p d Hp Hg.
  unfold analisar_credito, fazer_predicao, tentar.
  unfold bind at 2. unfold ou_levantar at 1. rewrite Hp.
  cbv beta delta [bind ret ler anexar_historico definir_df_log gravar_log
                  ou_levantar fst snd] iota.
  cbn [arquivo_log log_gravavel historico df_log tela].
  unfold apos_falha_gravacao. rewrite Hg. reflexivity.
Qed.

Lemma analise_lote_desenha :
  forall m a s, analise_lote m a s = (Some tt, desenhar (pagina_lote m a) s).
Proof.
  intros m a s. unfold analise_lote, pagina_lote, tentar, bind, ou_levantar.
  destruct (read_csv [] a) as [df|]; [|reflexivity].
  unfold ret at 1.
  destruct (pontuar_lote m df) as [out|]; [|reflexivity].
  unfold ret, mostrar, desenhar.
  cbn [arquivo_log log_gravavel historico df_log tela].
  rewrite <- app_assoc. reflexivity.
Qed.

Lemma desenhar_nil : forall s : Estado, desenhar [] s = s.
Proof. intros [a g h d t]. unfold desenhar. cbn. rewrite app_nil_r. reflexivity. Qed.

Lemma desenhar_desenhar :
  forall (a b : list Elemento) (s : Estado),
    desenhar b (desenhar a s) = desenhar (a ++ b) s.
Proof.
  intros a b s. unfold desenhar. cbn. rewrite app_assoc. reflexivity.
Qed.

Lemma envio_desenha :
  forall m e s,
    match uploaded_file e with
    | Some arquivo => analise_lote m arquivo
    | None => ret tt
    end s = (Some tt, desenhar (pagina_envio m e) s).
Proof.
  intros m e s. unfold pagina_envio. destruct (uploaded_file e) as [a|].
  - apply analise_lote_desenha.
  - rewrite desenhar_nil. reflexivity.
Qed.

(** The part of an execution after the sidebar, when the log can be
    written. *)
Lemma apos_barra_gravavel :
  forall m e s,
    log_gravavel s = true ->
    apos_barra m e s
    = (Some tt,
       desenhar (pagina_analise m e ++ pagina_envio m e)
         (if botao_analisar e then
            match predizer m (dados_cliente e) with
            | Some (p, d) => apos_gravacao e p d s
            | None => s
            end
          else s)).
Proof.
  intros m e s Hg. unfold apos_barra, pagina_analise, bind.
  destruct (botao_analisar e).
  - destruct (predizer m (dados_cliente e)) as [[p d]|] eqn:Hp.
    + rewrite (analisar_credito_gravado m e s p d Hp Hg), envio_desenha,
        desenhar_desenhar. reflexivity.
    + rewrite (analisar_credito_sem_predicao m e s Hp), envio_desenha,
        desenhar_desenhar. reflexivity.
  - unfold ret at 1. rewrite envio_desenha. reflexivity.
Qed.


Lemma apos_barra_falha_gravacao :
  forall m e s p d,
    botao_analisar e = true ->
    predizer m (dados_cliente e) = Some (p, d) ->
    log_gravavel s = false ->
    apos_barra m e s = (None, apos_falha_gravacao e p d s).
Proof.
  intros m e s p d Hb Hp Hg. unfold apos_barra, bind. rewrite Hb.
  rewrite (analisar_credito_nao_gravado m e s p d Hp Hg). reflexivity.
Qed.




(** *** The page of an execution on a sound log *)

Lemma executar_quadro :
  forall m e s es,
    carregar_log_predicoes (arquivo_log s) = quadro_log es ->
    exists d,
      executar (Some m) e s
      = fechar (apos_barra m e
                  (desenhar [elemento_historico (historico s); d] (apos_carga s)))
      /\ match es with
         | [] => d = SemDadosDrift
         | _ => exists q, d = MetricaIdade (Num q)
                          /\ (q == media_idade (janela (agora_drift e) es))%Q
         end.
Proof.
  intros m e s es Hc. rewrite executar_estagios.
  change (snd (mostrar (elemento_historico (historico s)) (apos_carga s)))
    with (desenhar [elemento_historico (historico s)] (apos_carga s)).
  set (s1 := desenhar [elemento_historico (historico s)] (apos_carga s)).
  destruct (monitoramento_quadro (agora_drift e) es s1 Hc) as (d & Hm & Hd).
  exists d. split; [|exact Hd].
  unfold bind. rewrite Hm. reflexivity.
Qed.

Lemma sem_traceback_analise :
  forall m e, ~ In Traceback (pagina_analise m e).
Proof.
  intros m e H. unfold pagina_analise in H.
  destruct (botao_analisar e); [|exact H].
  destruct (predizer m (dados_cliente e)) as [[p d]|]; cbn in H;
    repeat (destruct H as [H|H]; [discriminate H|]); exact H.
Qed.

Lemma sem_traceback_envio :
  forall m e, ~ In Traceback (pagina_envio m e).
Proof.
  intros m e H. unfold pagina_envio, pagina_lote in H.
  destruct (uploaded_file e) as [a|]; [|exact H].
  destruct (read_csv [] a) as [df|];
    [destruct (pontuar_lote m df) as [out|]|]; cbn in H;
    repeat (destruct H as [H|H]; [discriminate H|]); exact H.
Qed.

(** X2: when the log loads as a frame of entries and can be written, an
    execution never ends in a traceback, whatever the model answers and
    whatever is uploaded, and its page is: the session history as it was
    before this execution, the drift element computed from the entries
    logged before this execution (so a scoring does not count in its own
    drift figure, nor show in its own history table), then what the button
    handler draws, then what the batch block draws. *)
Theorem pagina_execucao :
  forall (m : Modelo) (e : Entrada) (s : Estado) (es : list LogEntry),
    carregar_log_predicoes (arquivo_log s) = quadro_log es ->
    log_gravavel s = true ->
    exists d,
      tela (executar (Some m) e s)
      = [elemento_historico (historico s); d]
        ++ pagina_analise m e ++ pagina_envio m e
      /\ match es with
         | [] => d = SemDadosDrift
         | _ => exists q, d = MetricaIdade (Num q)
                          /\ (q == media_idade (janela (agora_drift e) es))%Q
         end
      /\ ~ In Traceback (tela (executar (Some m) e s)).
Proof.
  intros m e s es Hc Hg.
  destruct (executar_quadro m e s es Hc) as (d & He & Hd).
  exists d.
  assert (Ht : tela (executar (Some m) e s)
               = [elemento_historico (historico s); d]
                 ++ pagina_analise m e ++ pagina_envio m e).
  { rewrite He, apos_barra_gravavel by exact Hg.
    cbn [fechar].
    destruct (botao_analisar e);
      [destruct (predizer m (dados_cliente e)) as [[p dd]|]|]; reflexivity. }
  split; [exact Ht|]. split; [exact Hd|].
  rewrite Ht. intros H. apply in_app_or in H. destruct H as [H|H].
  - destruct es as [|e0 es']; cbn in H.
    + subst d.
      destruct H as [H|[H|H]]; try discriminate H; [|exact H].
      destruct (historico s); discriminate H.
    + destruct Hd as (q & -> & _).
      destruct H as [H|[H|H]]; try discriminate H; [|exact H].
      destruct (historico s); discriminate H.
  - apply in_app_or in H. destruct H as [H|H].
    + exact (sem_traceback_analise m e H).
    + exact (sem_traceback_envio m e H).
Qed.

(** X3: a scoring whose log write fails, on a log that loads as a frame of
    entries: the execution ends in a traceback right after the sidebar,
    nothing of the result is drawn, the log file is left as it was, and the
    session history nevertheless has the scoring as its last item. *)
Theorem falha_gravacao_execucao :
  forall (m : Modelo) (e : Entrada) (s : Estado) (es : list LogEntry)
         (p : Q) (d : Z),
    carregar_log_predicoes (arquivo_log s) = quadro_log es ->
    log_gravavel s = false ->
    botao_analisar e = true ->
    predizer m (dados_cliente e) = Some (p, d) ->
    (exists dr,
        tela (executar (Some m) e s)
        = [elemento_historico (historico s); dr; Traceback])
    /\ filter e_resultado (tela (executar (Some m) e s)) = []
    /\ historico (executar (Some m) e s) = historico s ++ [item_historico e p d]
    /\ arquivo_log (executar (Some m) e s) = arquivo_log s.
Proof.
  intros m e s es p d Hc Hg Hb Hp.
  destruct (executar_quadro m e s es Hc) as (dr & He & Hd).
  rewrite He,
    (apos_barra_falha_gravacao m e
       (desenhar [elemento_historico (historico s); dr] (apos_carga s))
       p d Hb Hp Hg).
  cbn [fechar apos_falha_gravacao desenhar apos_carga arquivo_log log_gravavel
       historico df_log tela app].
  split; [exists dr; reflexivity|].
  split; [|split; reflexivity].
  cbn [filter].
  assert (H1 : e_resultado (elemento_historico (historico s)) = false)
    by (destruct (historico s); reflexivity).
  assert (H2 : e_resultado dr = false).
  { destruct es; [subst dr; reflexivity|].
    destruct Hd as (q & -> & _). reflexivity. }
  rewrite H1, H2. reflexivity.
Qed.

(** *** A log that loads but is not sound *)

Lemma lote_falha :
  forall (A B : Type) (f : A -> option B) (l : list A) (x : A),
    In x l -> f x = None -> lote f l = None.
Proof.
  intros A B f l x. induction l as [|y l IH]; intros Hin Hx; [contradiction|].
  cbn. destruct Hin as [->|Hin].
  - rewrite Hx. reflexivity.
  - destruct (f y); [|reflexivity]. rewrite (IH Hin Hx). reflexivity.
Qed.

(** X4: the defensive load only covers a file that cannot be read.  When
    the log file is read into a non-empty frame with a column idade whose
    column timestamp holds a text that is not a date, every execution with
    the model loaded ends in a traceback right after the history of the
    sidebar: neither the form handler nor the batch block runs, and
    history and log file stay as they were. *)
Theorem log_com_data_invalida :
  forall (m : Modelo) (e : Entrada) (s : Estado) (ts : list Cell) (t : string),
    empty (carregar_log_predicoes (arquivo_log s)) = false ->
    tem_coluna "idade" (carregar_log_predicoes (arquivo_log s)) = true ->
    coluna "timestamp" (carregar_log_predicoes (arquivo_log s)) = Some ts ->
    In (Texto t) ts ->
    executar (Some m) e s
    = {| arquivo_log := arquivo_log s; log_gravavel := log_gravavel s;
         historico := historico s;
         df_log := carregar_log_predicoes (arquivo_log s);
         tela := [elemento_historico (historico s); Traceback] |}.
Proof.
  intros m e s ts t He Hi Hts Hin. rewrite executar_estagios.
  unfold bind at 1.
  assert (Hm : monitoramento (agora_drift e)
                 (snd (mostrar (elemento_historico (historico s)) (apos_carga s)))
               = (None,
                  snd (mostrar (elemento_historico (historico s)) (apos_carga s)))).
  { unfold monitoramento. unfold bind at 1. unfold ler.
    cbn [snd mostrar apos_carga df_log].
    rewrite He, Hi, Hts. cbn [negb andb].
    unfold bind at 1. unfold ou_levantar at 1. unfold ret at 1.
    rewrite (lote_falha _ _ (comparar_ts (agora_drift e - trinta_dias)) ts
               (Texto t) Hin eq_refl).
    reflexivity. }
  rewrite Hm. reflexivity.
Qed.

(** *** Session history against the log *)

Lemma executar_historico :
  forall m e s es r,
    carregar_log_predicoes (arquivo_log s) = quadro_log es ->
    log_gravavel s = true ->
    botao_analisar e = true ->
    registro m e = Some r ->
    historico (executar (Some m) e s)
    = historico s ++ [item_historico e (log_probabilidade r) (log_predicao r)].
Proof.
  intros m e s es r Hc Hg Hb Hr. unfold registro in Hr.
  destruct (predizer m (dados_cliente e)) as [[p d]|] eqn:Hp; [|discriminate].
  injection Hr as <-.
  destruct (executar_quadro m e s es Hc) as (dr & He & _).
  rewrite He, apos_barra_gravavel by exact Hg. rewrite Hb, Hp. reflexivity.
Qed.

Lemma executar_todas_historico :
  forall m entradas regs s es,
    csv_fiel ->
    carregar_log_predicoes (arquivo_log s) = quadro_log es ->
    log_gravavel s = true ->
    forallb botao_analisar entradas = true ->
    lote (registro m) entradas = Some regs ->
    historico (executar_todas (Some m) entradas s)
    = historico s
      ++ map (fun er : Entrada * LogEntry =>
                item_historico (fst er) (log_probabilidade (snd er))
                  (log_predicao (snd er)))
             (combine entradas regs).
Proof.
  intros m entradas. induction entradas as [|e resto IH];
    intros regs s es Hf Hc Hg Hb Hl; cbn in Hl.
  - injection Hl as <-. cbn. rewrite app_nil_r. reflexivity.
  - destruct (registro m e) as [r|] eqn:Hr; [|discriminate].
    destruct (lote (registro m) resto) as [rs|] eqn:Hrs; [|discriminate].
    injection Hl as <-.
    cbn [forallb] in Hb. apply andb_true_iff in Hb. destruct Hb as [Hb1 Hb2].
    destruct (executar_anexa m e s es r Hc Hg Hb1 Hr) as [Ha Hg'].
    unfold executar_todas. cbn [fold_left].
    change (fold_left (fun s' e0 => executar (Some m) e0 s') resto
              (executar (Some m) e s))
      with (executar_todas (Some m) resto (executar (Some m) e s)).
    rewrite (IH rs (executar (Some m) e s) (es ++ [r]) Hf).
    + rewrite (executar_historico m e s es r Hc Hg Hb1 Hr).
      rewrite <- app_assoc. reflexivity.
    + rewrite Ha. apply carregar_apos_gravar. exact Hf.
    + exact Hg'.
    + exact Hb2.
    + reflexivity.
Qed.

Lemma Forall2_map_combine :
  forall (A B C : Type) (R : C -> B -> Prop) (f : A * B -> C)
         (l : list A) (l' : list B),
    List.length l = List.length l' ->
    (forall a b, R (f (a, b)) b) ->
    Forall2 R (map f (combine l l')) l'.
Proof.
  intros A B C R f l. induction l as [|a l IH]; intros [|b l'] Hlen HR;
    try discriminate; cbn.
  - constructor.
  - constructor; [apply HR | apply IH; [injection Hlen as Hlen; exact Hlen | exact HR]].
Qed.

(** X5: after N completed scorings of one session on a log that started
    absent or empty, the session history and the log file tell the same
    story: they have the same number of entries, and the i-th history item
    carries the probability of the i-th log entry and the label Aprovado
    exactly when that entry's predicao is 1.  pandas' CSV writer and reader
    are taken to give back the frame that was written. *)
Theorem historico_concorda_com_log :
  forall (m : Modelo) (entradas : list Entrada) (regs : list LogEntry)
         (s0 : Estado),
    csv_fiel ->
    log_ausente_ou_vazio (arquivo_log s0) ->
    log_gravavel s0 = true ->
    historico s0 = [] ->
    forallb botao_analisar entradas = true ->
    lote (registro m) entradas = Some regs ->
    carregar_log_predicoes
      (arquivo_log (executar_todas (Some m) entradas s0)) = quadro_log regs
    /\ Forall2 (fun (h : ItemHistorico) (r : LogEntry) =>
                  probabilidade_hist h = log_probabilidade r
                  /\ (resultado h = "Aprovado" <-> log_predicao r = 1))
               (historico (executar_todas (Some m) entradas s0)) regs.
Proof.
  intros m entradas regs s0 Hf H0 Hg Hh Hb Hl.
  pose proof (carregar_ausente_ou_vazio _ H0) as Hc.
  split.
  - apply (executar_todas_log m entradas regs s0 [] Hf Hc Hg Hb Hl).
  - rewrite (executar_todas_historico m entradas regs s0 [] Hf Hc Hg Hb Hl), Hh.
    cbn [app]. apply Forall2_map_combine.
    + symmetry. eapply lote_length. exact Hl.
    + intros e r. cbn [fst snd item_historico probabilidade_hist resultado].
      split; [reflexivity|].
      destruct (log_predicao r =? 1) eqn:E; cbn [rotulo].
      * apply Z.eqb_eq in E. split; [intros _; exact E | reflexivity].
      * apply Z.eqb_neq in E. split; [discriminate | intros H; contradiction].
Qed.

(** *** The table produced by batch scoring *)



End Extensoes.

(** *** The gauge and the risk bands *)





(** *** What the result of a scoring shows *)

Section Exibicao.

Context {P : Pandas}.

(** X8: the impact labels of income, credit score and credit experience
    never get worse when the value grows: between two forms, the one with
    the larger value has a label at least as good (Negativo below Neutro
    below Positivo).  Age is the one factor without this property. *)
Theorem impactos_monotonos :
  forall e1 e2 : Entrada,
    renda e1 <= renda e2 ->
    score_credito e1 <= score_credito e2 ->
    experiencia_credito e1 <= experiencia_credito e2 ->
    Forall2 (fun a b => ordem_impacto a <= ordem_impacto b)
            (tl (impactos e1)) (tl (impactos e2)).
Proof.
  intros e1 e2 Hr Hs Hx. unfold impactos. cbn [tl].
  constructor; [|constructor; [|constructor; [|constructor]]].
  - destruct (Z.leb_spec 4000 (renda e1)), (Z.leb_spec 4000 (renda e2)),
      (Z.ltb_spec (renda e1) 2000), (Z.ltb_spec (renda e2) 2000);
      cbn; lia.
  - destruct (Z.leb_spec 700 (score_credito e1)),
      (Z.leb_spec 700 (score_credito e2)),
      (Z.ltb_spec (score_credito e1) 500), (Z.ltb_spec (score_credito e2) 500);
      cbn; lia.
  - destruct (Z.leb_spec 2 (experiencia_credito e1)),
      (Z.leb_spec 2 (experiencia_credito e2)); cbn; lia.
Qed.

(** X9: the recommendations agree with the factor table.  The list always
    has between three and five lines; the line that asks to improve the
    credit score is there exactly when credit is denied and the score
    factor is marked Negativo, and the line that asks for more proof of
    income exactly when credit is denied and the income factor is marked
    Negativo. *)
Theorem recomendacoes_e_fatores :
  forall (e : Entrada) (p : Q) (d : option Z),
    (3 <= List.length (lista_recomendacoes e p d) <= 5)%nat
    /\ (In foco_score (lista_recomendacoes e p d)
        <-> igual_a_1 d = false /\ nth 2 (impactos e) "" = "Negativo")
    /\ (In foco_renda (lista_recomendacoes e p d)
        <-> igual_a_1 d = false /\ nth 1 (impactos e) "" = "Negativo").
Proof.
  intros e p d. unfold lista_recomendacoes, impactos. cbn [nth].
  destruct (igual_a_1 d).
  - destruct (Qle_bool (8 # 10) p); [|destruct (Qle_bool (6 # 10) p)];
      (split; [cbn; lia|]);
      (split; (split; [intros Hin; cbn in Hin;
                       repeat (destruct Hin as [Hin|Hin]; [discriminate Hin|]);
                       contradiction
                      | intros [Hd _]; discriminate Hd])).
  - destruct (Z.ltb_spec (score_credito e) 500) as [Hs|Hs],
      (Z.ltb_spec (renda e) 2000) as [Hr|Hr];
      destruct (Z.leb_spec 700 (score_credito e)) as [Hs'|Hs'],
        (Z.leb_spec 4000 (renda e)) as [Hr'|Hr']; try lia;
      (split; [cbn; lia|]);
      (split; (split; [intros Hin; cbn in Hin;
                       repeat (destruct Hin as [Hin|Hin]; [try discriminate Hin|]);
                       try contradiction; split; reflexivity
                      | intros [_ Hn]; try discriminate Hn; cbn; tauto])).
Qed.

(** X10: the banner under the gauge agrees with the metrics above it.  The
    green banner is drawn exactly when the decision metric says approved
    and the risk metric says Baixo Risco; the yellow one exactly when the
    decision is approved and the risk is not Baixo Risco; the red one
    exactly when the decision metric says denied. *)
Theorem interpretacao_e_metricas :
  forall (e : Entrada) (p : Q) (d : option Z) (s : Estado),
    tela (snd (exibir_resultado e p d s)) = tela s ++ elementos_resultado e p d
    /\ (In (Interpretacao "success-message") (elementos_resultado e p d)
        <-> In (MetricaDecisao true) (elementos_resultado e p d)
            /\ In (MetricaRisco "Baixo Risco") (elementos_resultado e p d))
    /\ (In (Interpretacao "warning-message") (elementos_resultado e p d)
        <-> In (MetricaDecisao true) (elementos_resultado e p d)
            /\ ~ In (MetricaRisco "Baixo Risco") (elementos_resultado e p d))
    /\ (In (Interpretacao "danger-message") (elementos_resultado e p d)
        <-> In (MetricaDecisao false) (elementos_resultado e p d)).
Proof.
  intros e p d s. split; [rewrite exibir_resultado_desenha; reflexivity|].
  unfold elementos_resultado, categorizar_risco.
  destruct (igual_a_1 d); destruct (Qle_bool (7 # 10) p);
    destruct (Qle_bool (4 # 10) p); cbn [fst In];
    repeat split; intros;
    repeat match goal with
           | H : _ /\ _ |- _ => destruct H
           | H : _ \/ _ |- _ => destruct H
           | H : False |- _ => contradiction
           | H : _ = _ |- _ => discriminate H
           | |- ~ _ => intro
           end;
    first [ solve [auto 10]
          | match goal with
            | H : ~ _ |- _ => exfalso; apply H; solve [auto 10]
            end ].
Qed.

(** X11: the colouring of the factor table tells the three impact labels
    apart on every form: a cell is green exactly when its impact is
    Positivo, red exactly when it is Negativo, and the fallback yellow only
    when it is Neutro. *)
Theorem cores_dos_fatores :
  forall e : Entrada,
    Forall (fun v =>
              (color_impacto v = "background-color: #d4edda" <-> v = "Positivo")
              /\ (color_impacto v = "background-color: #f8d7da" <-> v = "Negativo")
              /\ (color_impacto v = "background-color: #fff3cd" <-> v = "Neutro"))
           (impactos e).
Proof.
  intros e. unfold impactos.
  repeat constructor;
    repeat match goal with
           | |- context [if ?b then _ else _] => destruct b
           end;
    cbn; intros H; try reflexivity; discriminate H.
Qed.

End Exibicao.

(** *** Scoring a table that was already scored *)

Lemma substituir_igual :
  forall (nome : string) (v : list Cell) (df : DataFrame),
    Forall (fun c : Coluna => fst c = nome -> snd c = v) df ->
    substituir nome v df = df.
Proof.
  intros nome v df H. unfold substituir. induction H as [|[n c] df Hc _ IH].
  - reflexivity.
  - cbn [map fst]. rewrite IH. destruct (String.eqb nome n) eqn:E.
    + apply String.eqb_eq in E. subst n.
      pose proof (Hc eq_refl) as Hv. cbn in Hv. subst c. reflexivity.
    + reflexivity.
Qed.

Lemma sem_coluna_sem_nome :
  forall (nome : string) (df : DataFrame),
    tem_coluna nome df = false -> Forall (fun c : Coluna => fst c <> nome) df.
Proof.
  intros nome df. unfold tem_coluna. induction df as [|[n c] df IH]; intros H.
  - constructor.
  - cbn in H. destruct (String.eqb nome n) eqn:E; [discriminate|].
    constructor; [|apply IH; exact H].
    cbn. intros ->. rewrite String.eqb_refl in E. discriminate.
Qed.

Lemma atribuir_todas :
  forall (nome : string) (v : list Cell) (df out : DataFrame),
    atribuir nome v df = Some out ->
    Forall (fun c : Coluna => fst c = nome -> snd c = v) out.
Proof.
  intros nome v df out. unfold atribuir.
  destruct (Nat.eqb (List.length v) (n_linhas df)); [|discriminate].
  destruct (tem_coluna nome df) eqn:Et; intros H; injection H as <-.
  - unfold substituir. apply Forall_map. apply Forall_forall.
    intros [n c] _. cbn [fst]. destruct (String.eqb nome n) eqn:E; cbn.
    + reflexivity.
    + intros ->. rewrite String.eqb_refl in E. discriminate.
  - apply Forall_app. split.
    + eapply Forall_impl; [|apply sem_coluna_sem_nome; exact Et].
      intros c Hc Hn. contradiction.
    + constructor; [reflexivity | constructor].
Qed.

Lemma atribuir_mantem_todas :
  forall (nome nome' : string) (v v' : list Cell) (df out : DataFrame),
    nome <> nome' ->
    Forall (fun c : Coluna => fst c = nome' -> snd c = v') df ->
    atribuir nome v df = Some out ->
    Forall (fun c : Coluna => fst c = nome' -> snd c = v') out.
Proof.
  intros nome nome' v v' df out Hne Hdf. unfold atribuir.
  destruct (Nat.eqb (List.length v) (n_linhas df)); [|discriminate].
  destruct (tem_coluna nome df); intros H; injection H as <-.
  - unfold substituir. apply Forall_map.
    eapply Forall_impl; [|exact Hdf]. intros [n c] Hc. cbn [fst].
    destruct (String.eqb nome n) eqn:E; cbn in *; [|exact Hc].
    apply String.eqb_eq in E. subst n. intros Hn. contradiction.
  - apply Forall_app. split; [exact Hdf|].
    constructor; [|constructor]. cbn. intros Hn. contradiction.
Qed.

Lemma n_linhas_atribuir :
  forall (nome : string) (v : list Cell) (df out : DataFrame),
    atribuir nome v df = Some out ->
    n_linhas out = n_linhas df /\ List.length v = n_linhas df.
Proof.
  intros nome v df out. unfold atribuir.
  destruct (Nat.eqb (List.length v) (n_linhas df)) eqn:E; [|discriminate].
  apply Nat.eqb_eq in E.
  destruct (tem_coluna nome df); intros H; injection H as <-.
  - split; [|exact E]. destruct df as [|[n0 c0] r]; [reflexivity|]. cbn.
    destruct (String.eqb nome n0); cbn; [exact E | reflexivity].
  - split; [|exact E]. destruct df as [|[n0 c0] r]; [exact E | reflexivity].
Qed.

Lemma atribuir_de_novo :
  forall (nome : string) (v : list Cell) (df : DataFrame),
    List.length v = n_linhas df ->
    coluna nome df = Some v ->
    Forall (fun c : Coluna => fst c = nome -> snd c = v) df ->
    atribuir nome v df = Some df.
Proof.
  intros nome v df Hl Hc Ht. unfold atribuir, tem_coluna.
  rewrite Hc. apply Nat.eqb_eq in Hl. rewrite Hl.
  rewrite (substituir_igual nome v df Ht). reflexivity.
Qed.

(** X12: batch scoring is idempotent on tables with the four named
    columns.  When such a table is scored and the result is uploaded again
    (as the downloaded file would be), scoring succeeds again and gives
    that same table back: the columns Probabilidade and Resultado added by
    the first pass do not reach the model and are rewritten with the same
    values. *)
Theorem lote_idempotente :
  forall (m : Modelo) (df out : DataFrame),
    forallb (fun col => tem_coluna col df) colunas_esperadas = true ->
    pontuar_lote m df = Some out ->
    pontuar_lote m out = Some out.
Proof.
  intros m df out Hall H.
  destruct (pontuar_lote_sucesso m df out H)
    as (X & proba & ps & preds & df1 & HX & Hp & Hps & Hd & H1 & H2).
  destruct (pontuar_lote_colunas m df out H)
    as (X' & proba' & ps' & preds' & HX' & Hp' & Hps' & Hd' & Hcol).
  assert (X' = X) by congruence. subst X'.
  assert (proba' = proba) by congruence. subst proba'.
  assert (ps' = ps) by congruence. subst ps'.
  assert (preds' = preds) by congruence. subst preds'.
  assert (HXo : X_lote out = Some X).
  { pose proof (X_lote_selecao df) as Hs. rewrite Hall in Hs.
    destruct Hs as (c1 & c2 & c3 & c4 & E1 & E2 & E3 & E4 & HXd).
    rewrite <- HX, HXd.
    unfold X_lote, selecionar, colunas_esperadas. cbn [forallb lote].
    unfold tem_coluna. rewrite !Hcol.
    cbn [String.eqb Ascii.eqb Bool.eqb]. rewrite E1, E2, E3, E4.
    reflexivity. }
  destruct (n_linhas_atribuir _ _ _ _ H1) as [Hn1 Hl1].
  destruct (n_linhas_atribuir _ _ _ _ H2) as [Hn2 Hl2].
  unfold pontuar_lote. rewrite HXo, Hp, Hps, Hd.
  rewrite (atribuir_de_novo "Probabilidade" (map Num ps) out).
  - apply atribuir_de_novo.
    + congruence.
    + rewrite Hcol. reflexivity.
    + apply (atribuir_todas _ _ _ _ H2).
  - congruence.
  - rewrite Hcol. reflexivity.
  - apply (atribuir_mantem_todas "Resultado" "Probabilidade"
             (map (fun d => Texto (rotulo (d =? 1))) preds) (map Num ps)
             df1 out);
      [discriminate | apply (atribuir_todas _ _ _ _ H1) | exact H2].
Qed.

(** *** The drift figure stays within the ages logged *)

Lemma soma_idades_limites :
  forall (lo hi : Z) (es : list LogEntry),
    Forall (fun r => lo <= log_idade r <= hi) es ->
    Z.of_nat (List.length es) * lo <= soma_idades es
    <= Z.of_nat (List.length es) * hi.
Proof.
  intros lo hi es H. induction H as [|r es Hr _ IH].
  - cbn. lia.
  - cbn [soma_idades fold_right List.length].
    fold (soma_idades es). rewrite Nat2Z.inj_succ. lia.
Qed.

Lemma media_idade_limites :
  forall (lo hi : Z) (e0 : LogEntry) (es : list LogEntry),
    Forall (fun r => lo <= log_idade r <= hi) (e0 :: es) ->
    (inject_Z lo <= media_idade (e0 :: es) <= inject_Z hi)%Q.
Proof.
  intros lo hi e0 es H.
  pose proof (soma_idades_limites lo hi (e0 :: es) H) as [Hlo Hhi].
  unfold media_idade.
  set (n := Z.of_nat (List.length (e0 :: es))) in *.
  assert (Hn : 0 < n) by (subst n; cbn [List.length]; lia).
  assert (Hq : (0 < inject_Z n)%Q).
  { change (inject_Z 0 < inject_Z n)%Q. rewrite <- Zlt_Qlt. exact Hn. }
  split.
  - apply Qle_shift_div_l; [exact Hq|].
    rewrite <- inject_Z_mult, <- Zle_Qle. lia.
  - apply Qle_shift_div_r; [exact Hq|].
    rewrite <- inject_Z_mult, <- Zle_Qle. lia.
Qed.

Lemma janela_limites :
  forall (agora lo hi : Z) (es : list LogEntry),
    Forall (fun r => lo <= log_idade r <= hi) es ->
    Forall (fun r => lo <= log_idade r <= hi) (janela agora es).
Proof.
  intros agora lo hi es H. unfold janela.
  destruct (recentes agora es) as [|r0 rs] eqn:E; [exact H|].
  rewrite <- E. unfold recentes. apply Forall_forall. intros r Hr.
  apply filter_In in Hr. destruct Hr as [Hr _].
  exact (proj1 (Forall_forall _ _) H r Hr).
Qed.

Section Deriva.

Context {P : Pandas}.

(** X13: the drift figure is an age that was logged, on average: on a log
    of at least one entry whose ages all lie between lo and hi (as ages
    taken from the slider do, between 18 and 80), the drift monitor shows a
    number, and that number lies between lo and hi, whatever the time and
    whichever entries fall in the 30-day window. *)
Theorem deriva_entre_limites :
  forall (agora lo hi : Z) (e0 : LogEntry) (es : list LogEntry)
         (arq : option Arquivo) (g : bool) (h : list ItemHistorico)
         (t : list Elemento),
    Forall (fun r => lo <= log_idade r <= hi) (e0 :: es) ->
    exists q,
      monitoramento agora
        {| arquivo_log := arq; log_gravavel := g; historico := h;
           df_log := quadro_log (e0 :: es); tela := t |}
      = (Some tt,
         {| arquivo_log := arq; log_gravavel := g; historico := h;
            df_log := quadro_log (e0 :: es);
            tela := t ++ [MetricaIdade (Num q)] |})
      /\ (inject_Z lo <= q <= inject_Z hi)%Q.
Proof.
  intros agora lo hi e0 es arq g h t H.
  destruct (monitoramento_quadro agora (e0 :: es)
              {| arquivo_log := arq; log_gravavel := g; historico := h;
                 df_log := quadro_log (e0 :: es); tela := t |} eq_refl)
    as (el & Hm & (q & -> & Hq)).
  exists q. split; [exact Hm|].
  pose proof (janela_limites agora lo hi (e0 :: es) H) as Hj.
  assert (Hne : janela agora (e0 :: es) <> []).
  { unfold janela. destruct (recentes agora (e0 :: es)); discriminate. }
  destruct (janela agora (e0 :: es)) as [|j0 js]; [contradiction|].
  rewrite Hq. apply media_idade_limites. exact Hj.
Qed.

End Deriva.

(** *** Appending to whatever log was loaded *)

Lemma coluna_app_geral :
  forall (n : string) (a b : DataFrame),
    coluna n (a ++ b)
    = match coluna n a with Some c => Some c | None => coluna n b end.
Proof.
  intros n a b. induction a as [|[n0 c0] a IH]; cbn.
  - reflexivity.
  - destruct (String.eqb n n0); [reflexivity | exact IH].
Qed.

Lemma coluna_concat :
  forall (n : string) (df : DataFrame) (l : list (string * Cell)),
    coluna n (concat df l)
    = match coluna n df with
      | Some c =>
          Some (c ++ [match valor n l with Some v => v | None => Vazio end])
      | None =>
          match valor n l with
          | Some v => Some (repeat Vazio (n_linhas df) ++ [v])
          | None => None
          end
      end.
Proof.
  intros n df l. unfold concat. rewrite coluna_app_geral.
  assert (HA : coluna n (map (fun c : Coluna =>
                                (fst c,
                                 snd c ++ [match valor (fst c) l with
                                           | Some v => v
                                           | None => Vazio
                                           end])) df)
               = match coluna n df with
                 | Some c =>
                     Some (c ++ [match valor n l with
                                 | Some v => v
                                 | None => Vazio
                                 end])
                 | None => None
                 end).
  { induction df as [|[n0 c0] df IH]; cbn; [reflexivity|].
    destruct (String.eqb n n0) eqn:E; [|exact IH].
    apply String.eqb_eq in E. subst n0. reflexivity. }
  rewrite HA. destruct (coluna n df) as [c|] eqn:Ec; [reflexivity|].
  assert (Ht : tem_coluna n df = false) by (unfold tem_coluna; rewrite Ec; reflexivity).
  clear HA. induction l as [|[n' v'] l IH]; cbn; [reflexivity|].
  destruct (String.eqb n n') eqn:E.
  - apply String.eqb_eq in E. subst n'. rewrite Ht. cbn.
    rewrite String.eqb_refl. reflexivity.
  - destruct (negb (tem_coluna n' df)); cbn; [rewrite E|]; exact IH.
Qed.

Lemma n_linhas_concat :
  forall (df : DataFrame) (nv : string * Cell) (l : list (string * Cell)),
    n_linhas (concat df (nv :: l)) = S (n_linhas df).
Proof.
  intros [|[n0 c0] df] nv l; unfold concat; cbn.
  - reflexivity.
  - rewrite length_app. cbn. lia.
Qed.

Lemma retangular_concat :
  forall (df : DataFrame) (nv : string * Cell) (l : list (string * Cell)),
    retangular df -> retangular (concat df (nv :: l)).
Proof.
  intros df nv l H. unfold retangular. rewrite n_linhas_concat.
  unfold concat. apply Forall_app. split.
  - apply Forall_map. eapply Forall_impl; [|exact H].
    intros c Hc. cbn. rewrite length_app, Hc. cbn. lia.
  - apply Forall_map. apply Forall_forall. intros x _. cbn.
    rewrite length_app, repeat_length. cbn. lia.
Qed.

Section Anexacao.

Context {P : Pandas}.

(** X14: a completed scoring never loses what the loaded log held.
    Whatever frame the log file was read into (the app's own schema or
    another one), provided its columns have one cell per row, the frame
    written back has exactly one row more, is again one cell per row, keeps
    every column it had with all its cells in place, and has each of the
    seven values of the new entry as the last cell of the column of its
    name. *)
Theorem gravacao_sem_perdas :
  forall (m : Modelo) (e : Entrada) (s : Estado) (p : Q) (d : Z),
    predizer m (dados_cliente e) = Some (p, d) ->
    log_gravavel s = true ->
    retangular (df_log s) ->
    exists novo,
      arquivo_log (snd (analisar_credito m e s)) = Some (to_csv novo)
      /\ df_log (snd (analisar_credito m e s)) = novo
      /\ retangular novo
      /\ n_linhas novo = S (n_linhas (df_log s))
      /\ (forall n c, coluna n (df_log s) = Some c ->
                      exists v, coluna n novo = Some (c ++ [v]))
      /\ (forall n v, valor n (nova_linha e p d) = Some v ->
                      exists c, coluna n novo = Some (c ++ [v])).
Proof.
  intros m e s p d Hp Hg Hr.
  exists (concat (df_log s) (nova_linha e p d)).
  rewrite (analisar_credito_gravado m e s p d Hp Hg).
  split; [reflexivity|]. split; [reflexivity|].
  split; [apply retangular_concat; exact Hr|].
  split; [apply n_linhas_concat|].
  split.
  - intros n c Hc. rewrite coluna_concat, Hc. eexists. reflexivity.
  - intros n v Hv. rewrite coluna_concat, Hv.
    destruct (coluna n (df_log s)) as [c|]; eexists; reflexivity.
Qed.

End Anexacao.

(** ** The further properties at concrete inputs *)

Lemma pagina_execucao_witness :
  carregar_log_predicoes (arquivo_log estado_inicial) = quadro_log []
  /\ log_gravavel estado_inicial = true
  /\ exists d,
      tela (executar (Some modelo_exemplo) entrada_padrao estado_inicial)
      = [elemento_historico (historico estado_inicial); d]
        ++ pagina_analise modelo_exemplo entrada_padrao
        ++ pagina_envio modelo_exemplo entrada_padrao
      /\ d = SemDadosDrift
      /\ ~ In Traceback
           (tela (executar (Some modelo_exemplo) entrada_padrao estado_inicial)).
Proof.
  split; [reflexivity|]. split; [reflexivity|].
  exact (pagina_execucao modelo_exemplo entrada_padrao estado_inicial []
           eq_refl eq_refl).
Defined.

Lemma falha_gravacao_execucao_witness :
  carregar_log_predicoes (arquivo_log estado_sem_escrita) = quadro_log []
  /\ log_gravavel estado_sem_escrita = false
  /\ botao_analisar entrada_padrao = true
  /\ predizer modelo_exemplo (dados_cliente entrada_padrao) = Some (350 # 550, 1)
  /\ ((exists dr,
          tela (executar (Some modelo_exemplo) entrada_padrao estado_sem_escrita)
          = [elemento_historico (historico estado_sem_escrita); dr; Traceback])
      /\ filter e_resultado
           (tela (executar (Some modelo_exemplo) entrada_padrao
                    estado_sem_escrita)) = []
      /\ historico (executar (Some modelo_exemplo) entrada_padrao
                      estado_sem_escrita)
         = historico estado_sem_escrita
           ++ [item_historico entrada_padrao (350 # 550) 1]
      /\ arquivo_log (executar (Some modelo_exemplo) entrada_padrao
                        estado_sem_escrita)
         = arquivo_log estado_sem_escrita).
Proof.
  do 4 (split; [reflexivity|]).
  exact (falha_gravacao_execucao modelo_exemplo entrada_padrao
           estado_sem_escrita [] (350 # 550) 1 eq_refl eq_refl eq_refl eq_refl).
Defined.

Lemma log_com_data_invalida_witness :
  empty (carregar_log_predicoes (arquivo_log estado_data_invalida)) = false
  /\ tem_coluna "idade" (carregar_log_predicoes (arquivo_log estado_data_invalida))
     = true
  /\ coluna "timestamp" (carregar_log_predicoes (arquivo_log estado_data_invalida))
     = Some [Texto "ontem"]
  /\ In (Texto "ontem") [Texto "ontem"]
  /\ executar (Some modelo_exemplo) entrada_padrao estado_data_invalida
     = {| arquivo_log := arquivo_log estado_data_invalida;
          log_gravavel := log_gravavel estado_data_invalida;
          historico := historico estado_data_invalida;
          df_log := carregar_log_predicoes (arquivo_log estado_data_invalida);
          tela := [elemento_historico (historico estado_data_invalida);
                   Traceback] |}.
Proof.
  split; [reflexivity|]. split; [reflexivity|]. split; [reflexivity|].
  split; [left; reflexivity|].
  exact (log_com_data_invalida modelo_exemplo entrada_padrao
           estado_data_invalida [Texto "ontem"] "ontem"
           eq_refl eq_refl eq_refl (or_introl eq_refl)).
Defined.

Lemma historico_concorda_com_log_witness :
  @csv_fiel pandas_celulas
  /\ log_ausente_ou_vazio (arquivo_log estado_inicial)
  /\ log_gravavel estado_inicial = true
  /\ historico estado_inicial = []
  /\ forallb botao_analisar [entrada_padrao; entrada_jovem] = true
  /\ lote (registro modelo_exemplo) [entrada_padrao; entrada_jovem]
     = Some registros_exemplo
  /\ (carregar_log_predicoes
        (arquivo_log (executar_todas (Some modelo_exemplo)
                        [entrada_padrao; entrada_jovem] estado_inicial))
      = quadro_log registros_exemplo
      /\ Forall2 (fun (h : ItemHistorico) (r : LogEntry) =>
                    probabilidade_hist h = log_probabilidade r
                    /\ (resultado h = "Aprovado" <-> log_predicao r = 1))
                 (historico (executar_todas (Some modelo_exemplo)
                               [entrada_padrao; entrada_jovem] estado_inicial))
                 registros_exemplo).
Proof.
  split; [exact csv_fiel_celulas|].
  split; [left; reflexivity|].
  do 4 (split; [reflexivity|]).
  exact (historico_concorda_com_log modelo_exemplo
           [entrada_padrao; entrada_jovem] registros_exemplo estado_inicial
           csv_fiel_celulas (or_introl eq_refl) eq_refl eq_refl eq_refl eq_refl).
Defined.




Lemma impactos_monotonos_witness :
  renda entrada_jovem <= renda entrada_padrao
  /\ score_credito entrada_jovem <= score_credito entrada_padrao
  /\ experiencia_credito entrada_jovem <= experiencia_credito entrada_padrao
  /\ Forall2 (fun a b => ordem_impacto a <= ordem_impacto b)
             (tl (impactos entrada_jovem)) (tl (impactos entrada_padrao)).
Proof.
  assert (H1 : renda entrada_jovem <= renda entrada_padrao) by (cbn; lia).
  assert (H2 : score_credito entrada_jovem <= score_credito entrada_padrao)
    by (cbn; lia).
  assert (H3 : experiencia_credito entrada_jovem
               <= experiencia_credito entrada_padrao) by (cbn; lia).
  split; [exact H1|]. split; [exact H2|]. split; [exact H3|].
  exact (impactos_monotonos entrada_jovem entrada_padrao H1 H2 H3).
Defined.

Lemma lote_idempotente_witness :
  forallb (fun col => tem_coluna col tabela_embaralhada) colunas_esperadas = true
  /\ pontuar_lote modelo_exemplo tabela_embaralhada = Some saida_embaralhada
  /\ pontuar_lote modelo_exemplo saida_embaralhada = Some saida_embaralhada.
Proof.
  split; [reflexivity|]. split; [reflexivity|].
  exact (lote_idempotente modelo_exemplo tabela_embaralhada saida_embaralhada
           eq_refl eq_refl).
Defined.

Lemma idades_exemplo :
  Forall (fun r => 18 <= log_idade r <= 80) registros_exemplo.
Proof. repeat constructor; cbn; lia. Qed.

Lemma deriva_entre_limites_witness :
  Forall (fun r => 18 <= log_idade r <= 80) registros_exemplo
  /\ exists q,
      monitoramento 9000
        {| arquivo_log := None; log_gravavel := true; historico := [];
           df_log := quadro_log registros_exemplo; tela := [] |}
      = (Some tt,
         {| arquivo_log := None; log_gravavel := true; historico := [];
            df_log := quadro_log registros_exemplo;
            tela := [] ++ [MetricaIdade (Num q)] |})
      /\ (inject_Z 18 <= q <= inject_Z 80)%Q.
Proof.
  split; [exact idades_exemplo|].
  exact (@deriva_entre_limites pandas_celulas 9000 18 80
           {| log_timestamp := 3000; log_idade := 35; log_renda := 5000;
            log_score_credito := 650; log_experiencia_credito := 2;
            log_probabilidade := 350 # 550; log_predicao := 1 |}
           [{| log_timestamp := 7000; log_idade := 19; log_renda := 1500;
            log_score_credito := 410; log_experiencia_credito := 0;
            log_probabilidade := 110 # 550; log_predicao := 0 |}]
           None true [] [] idades_exemplo).
Defined.

Lemma retangular_log_antigo : retangular log_antigo.
Proof. unfold retangular. repeat constructor. Qed.

Lemma gravacao_sem_perdas_witness :
  predizer modelo_exemplo (dados_cliente entrada_padrao) = Some (350 # 550, 1)
  /\ retangular log_antigo
  /\ exists novo,
      arquivo_log
        (snd (analisar_credito modelo_exemplo entrada_padrao
                estado_esquema_antigo))
      = Some novo
      /\ n_linhas novo = S (n_linhas log_antigo)
      /\ coluna "aprovado" novo = Some [Num 1; Vazio]
      /\ coluna "idade" novo = Some [Num 40; Num 35]
      /\ coluna "probabilidade" novo = Some [Vazio; Num (350 # 550)].
Proof.
  split; [reflexivity|]. split; [exact retangular_log_antigo|].
  destruct (@gravacao_sem_perdas pandas_celulas modelo_exemplo entrada_padrao
              estado_esquema_antigo
              (350 # 550) 1 eq_refl eq_refl retangular_log_antigo)
    as (novo & Ha & Hd & _ & Hn & _ & _).
  exists novo. split; [exact Ha|]. split; [exact Hn|].
  rewrite <- Hd. repeat split.
Defined.
